(** * AT-commander: a shallow embedding of [atcommander.c]

    The driver negotiates a command-mode session with a serial AT device.
    Everything it does goes through five function pointers of the session
    configuration (write a byte, poll a byte, sleep, switch the UART baud
    rate, log a line).  The embedding threads an explicit machine state
    made of the configuration struct, the state of the outside world those
    pointers act on, and the chronological list of the calls made through
    them.  A computation that dereferences a NULL string, reads past a
    string's terminator, or runs out of loop fuel has no result. *)

From Stdlib Require Import ZArith String Ascii DecimalString Bool Lia List.
Import ListNotations.
Open Scope Z_scope.

(** ** C strings *)

(** A [char*]: NULL, or the characters that precede the terminating NUL of
    the array it points to. *)
Definition cstring := option (list ascii).

Definition NUL : ascii := Ascii.zero.

Definition is_nul (c : ascii) : bool := Ascii.eqb c NUL.

Definition lit (s : string) : cstring := Some (list_ascii_of_string s).

(** ["\r\n"] *)
Definition CRLF : list ascii := ["013"%char; "010"%char].

Definition lit_crlf (s : string) : cstring :=
  Some (list_ascii_of_string s ++ CRLF).

(** [p[i]]: the array behind a string holds its characters and then one
    NUL; any other index, and any index off NULL, is outside it. *)
Definition char_at (p : cstring) (i : Z) : option ascii :=
  match p with
  | None => None
  | Some s =>
      if i <? 0 then None
      else if i <? Z.of_nat (length s) then nth_error s (Z.to_nat i)
      else if i =? Z.of_nat (length s) then Some NUL
      else None
  end.

(** [strlen] on the characters: the index of the first NUL. *)
Fixpoint chars_strlen (s : list ascii) : Z :=
  match s with
  | [] => 0
  | c :: t => if is_nul c then 0 else 1 + chars_strlen t
  end.

Definition strlen (p : cstring) : option Z := option_map chars_strlen p.

Definition code (c : ascii) : Z := Z.of_N (N_of_ascii c).

(** [strncmp(s1, s2, n)]: compares at most [n] characters as unsigned
    chars and stops after a NUL common to both.  The end of a list stands
    for the terminator of the string. *)
Fixpoint strncmp (s1 s2 : list ascii) (n : Z) {struct s1} : Z :=
  if n <=? 0 then 0
  else
    match s1, s2 with
    | [], [] => 0
    | [], c2 :: _ => code NUL - code c2
    | c1 :: _, [] => code c1 - code NUL
    | c1 :: t1, c2 :: t2 =>
        if Ascii.eqb c1 c2
        then (if is_nul c1 then 0 else strncmp t1 t2 (n - 1))
        else code c1 - code c2
    end.

(** An [int] length handed to a [size_t] parameter. *)
Definition size_t_of_int (z : Z) : Z := if z <? 0 then z + 2 ^ 64 else z.

(** [char c = byte] for an [int] byte: the low eight bits. *)
Definition char_of_int (z : Z) : ascii := ascii_of_N (Z.to_N (z mod 256)).

(** The text [%d] prints for an [int]. *)
Definition decimal (z : Z) : list ascii :=
  list_ascii_of_string (NilZero.string_of_int (Z.to_int z)).

(** [sprintf(out, fmt, arg)] for the templates of this file: characters
    are copied and [%d] is replaced by the decimal text of [arg].  No
    other conversion occurs in the platform tables, and no template holds
    more than one. *)
Fixpoint format (fmt : list ascii) (arg : Z) : list ascii :=
  match fmt with
  | [] => []
  | c :: rest =>
      match rest with
      | d :: rest' =>
          if Ascii.eqb c "%"%char && Ascii.eqb d "d"%char
          then decimal arg ++ format rest' arg
          else c :: format rest arg
      | [] => [c]
      end
  end.

(** ** Constants *)

Definition RETRY_DELAY_MS : Z := 50.
Definition MAX_RESPONSE_LENGTH : Z := 8.
Definition MAX_RETRIES : Z := 3.

(** [char command[5]] in [at_commander_set_baud]. *)
Definition COMMAND_BUFFER_SIZE : Z := 5.

(** ** Platform profiles *)

Record AtCommand := mkAtCommand {
  request_format : cstring;
  expected_response : cstring
}.

Record AtCommanderPlatform := mkPlatform {
  response_delay_ms : Z;
  baud_rate_mapper : option (Z -> Z);
  enter_command_mode_command : AtCommand;
  exit_command_mode_command : AtCommand;
  set_baud_rate_command : AtCommand;
  store_settings_command : AtCommand;
  reboot_command : AtCommand
}.

Definition passthrough_baud_rate_mapper (baud : Z) : Z := baud.

(** The local [value] is returned as it is when no [case] matches; its
    initial content [value0] is whatever the stack held. *)
Definition xbee_baud_rate_mapper (value0 : Z) (baud : Z) : Z :=
  if baud =? 1200 then 0
  else if baud =? 2300 then 1
  else if baud =? 4800 then 2
  else if baud =? 9600 then 3
  else if baud =? 19200 then 4
  else if baud =? 38400 then 5
  else if baud =? 57600 then 6
  else if baud =? 115200 then 7
  else value0.

(** The baud rates the XBee mapper has a [case] for. *)
Definition xbee_bauds : list Z :=
  [1200; 2300; 4800; 9600; 19200; 38400; 57600; 115200].

(** The mapper [at_commander_set_baud] ends up calling. *)
Definition effective_mapper (p : AtCommanderPlatform) : Z -> Z :=
  match baud_rate_mapper p with
  | None => passthrough_baud_rate_mapper
  | Some f => f
  end.

(** [DEFAULT_RESPONSE_DELAY_MS] comes from the header and is a parameter
    of the RN-42 profile. *)
Definition AT_PLATFORM_RN42 (DEFAULT_RESPONSE_DELAY_MS : Z)
  : AtCommanderPlatform :=
  mkPlatform
    DEFAULT_RESPONSE_DELAY_MS
    None
    (mkAtCommand (lit "$$$") (lit_crlf "CMD"))
    (mkAtCommand (lit "---") (lit_crlf "END"))
    (mkAtCommand (lit_crlf "SU,%d") (lit_crlf "AOK"))
    (mkAtCommand None None)
    (mkAtCommand (lit_crlf "R,1") None).

Definition AT_PLATFORM_XBEE (value0 : Z) : AtCommanderPlatform :=
  mkPlatform
    3000
    (Some (xbee_baud_rate_mapper value0))
    (mkAtCommand (lit "+++") (lit "OK"))
    (mkAtCommand None None)
    (mkAtCommand (lit_crlf "ATBD %d") (lit_crlf "OK"))
    (mkAtCommand (lit_crlf "ATWR") (lit_crlf "OK"))
    (mkAtCommand None None).

(** The request [at_commander_set_baud] formats into [command]. *)
Definition set_baud_command (p : AtCommanderPlatform) (baud : Z) : cstring :=
  option_map (fun fmt => format fmt (effective_mapper p baud))
             (request_format (set_baud_rate_command p)).

(** Whether an expected response fits [char response[MAX_RESPONSE_LENGTH]],
    the array [read] fills in [command_request]. *)
Definition response_fits (c : AtCommand) : bool :=
  match expected_response c with
  | Some e => chars_strlen e <=? MAX_RESPONSE_LENGTH
  | None => true
  end.

(** Whether the formatted request and its terminating NUL fit [command]. *)
Definition command_fits (command : list ascii) : bool :=
  Z.of_nat (length command) + 1 <=? COMMAND_BUFFER_SIZE.

Definition no_percent (s : list ascii) : bool :=
  forallb (fun c => negb (Ascii.eqb c "%"%char)) s.

(** The templates [format] renders as [sprintf] does when it is handed one
    [int]: no [%] at all, or one [%d] and no other [%]. *)
Fixpoint one_int_template (fmt : list ascii) : bool :=
  match fmt with
  | [] => true
  | c :: rest =>
      if Ascii.eqb c "%"%char
      then match rest with
           | d :: rest' => Ascii.eqb d "d"%char && no_percent rest'
           | [] => false
           end
      else one_int_template rest
  end.

Definition template_modelled (p : AtCommanderPlatform) : bool :=
  match request_format (set_baud_rate_command p) with
  | Some fmt => one_int_template fmt
  | None => false
  end.

(** ** Session, world and calls *)

Inductive LogArg :=
| ArgInt (z : Z)
| ArgStr (s : list ascii).

(** One call through a function pointer of the configuration. *)
Inductive Event :=
| EvWrite (c : ascii)
| EvRead (result : Z)
| EvDelay (ms : Z)
| EvBaud (baud : Z)
| EvLog (fmt : string) (args : list LogArg).

Definition is_log (e : Event) : bool :=
  match e with EvLog _ _ => true | _ => false end.

(** The transport calls of a trace: everything but the log lines. *)
Definition traffic (t : list Event) : list Event :=
  filter (fun e => negb (is_log e)) t.

Fixpoint written (t : list Event) : list ascii :=
  match t with
  | [] => []
  | EvWrite c :: t' => c :: written t'
  | _ :: t' => written t'
  end.

Fixpoint bauds (t : list Event) : list Z :=
  match t with
  | [] => []
  | EvBaud b :: t' => b :: bauds t'
  | _ :: t' => bauds t'
  end.

Fixpoint empty_polls (t : list Event) : Z :=
  match t with
  | [] => 0
  | EvRead r :: t' => (if r =? -1 then 1 else 0) + empty_polls t'
  | _ :: t' => empty_polls t'
  end.

Fixpoint received (t : list Event) : list ascii :=
  match t with
  | [] => []
  | EvRead r :: t' =>
      if r =? -1 then received t' else char_of_int r :: received t'
  | _ :: t' => received t'
  end.

Fixpoint delays (t : list Event) : list Z :=
  match t with
  | [] => []
  | EvDelay ms :: t' => ms :: delays t'
  | _ :: t' => delays t'
  end.

Section Transport.

(** The state of everything behind the function pointers: the UART, the
    device at its other end, the clock, the log. *)
Variable W : Type.

(** [read_function] is the one pointer the code calls without testing it
    against NULL, so a session always has it. *)
Record AtCommanderConfig := mkConfig {
  platform : AtCommanderPlatform;
  baud_rate_initializer : option (Z -> W -> W);
  write_function : option (ascii -> W -> W);
  read_function : W -> Z * W;
  delay_function : option (Z -> W -> W);
  log_function : option (string -> list LogArg -> W -> W);
  connected : bool;
  baud : Z;
  device_baud : Z
}.

Definition with_connected (b : bool) (c : AtCommanderConfig) :=
  mkConfig (platform c) (baud_rate_initializer c) (write_function c)
           (read_function c) (delay_function c) (log_function c)
           b (baud c) (device_baud c).

Definition with_baud (z : Z) (c : AtCommanderConfig) :=
  mkConfig (platform c) (baud_rate_initializer c) (write_function c)
           (read_function c) (delay_function c) (log_function c)
           (connected c) z (device_baud c).

Definition with_device_baud (z : Z) (c : AtCommanderConfig) :=
  mkConfig (platform c) (baud_rate_initializer c) (write_function c)
           (read_function c) (delay_function c) (log_function c)
           (connected c) (baud c) z.

Record Machine := mkMachine {
  cfg : AtCommanderConfig;
  world : W;
  trace : list Event
}.

(** A computation on the machine; [None] is the absence of a result. *)
Definition M (A : Type) : Type := Machine -> option (A * Machine).

Definition ret {A} (a : A) : M A := fun st => Some (a, st).

Definition bind {A B} (m : M A) (k : A -> M B) : M B :=
  fun st => match m st with
            | Some (a, st') => k a st'
            | None => None
            end.

Definition fault {A} : M A := fun _ => None.

Definition lift {A} (o : option A) : M A :=
  match o with Some a => ret a | None => fault end.

Definition get_cfg : M AtCommanderConfig := fun st => Some (cfg st, st).

Definition modify_cfg (f : AtCommanderConfig -> AtCommanderConfig) : M unit :=
  fun st => Some (tt, mkMachine (f (cfg st)) (world st) (trace st)).

(** A call through a pointer: the world moves and the call is recorded. *)
Definition call (e : Event) (f : W -> W) : M unit :=
  fun st => Some (tt, mkMachine (cfg st) (f (world st)) (trace st ++ [e])).

Definition call_read : M Z :=
  fun st =>
    let (r, w) := read_function (cfg st) (world st) in
    Some (r, mkMachine (cfg st) w (trace st ++ [EvRead r])).

End Transport.

Arguments mkConfig {W}.
Arguments mkMachine {W}.
Arguments platform {W}.
Arguments baud_rate_initializer {W}.
Arguments write_function {W}.
Arguments read_function {W}.
Arguments delay_function {W}.
Arguments log_function {W}.
Arguments connected {W}.
Arguments baud {W}.
Arguments device_baud {W}.
Arguments with_connected {W}.
Arguments with_baud {W}.
Arguments with_device_baud {W}.
Arguments cfg {W}.
Arguments world {W}.
Arguments trace {W}.
Arguments ret {W A}.
Arguments bind {W A B}.
Arguments fault {W A}.
Arguments lift {W A}.
Arguments get_cfg {W}.
Arguments modify_cfg {W}.
Arguments call {W}.
Arguments call_read {W}.

Declare Scope at_scope.
Notation "x <- m ;; k" := (bind m (fun x => k))
  (at level 100, m at next level, right associativity) : at_scope.
Notation "m ;;; k" := (bind m (fun _ => k))
  (at level 100, right associativity) : at_scope.
Open Scope at_scope.

(** ** The driver *)

Section Driver.

Variable W : Type.

(** [VALID_BAUD_RATES], the candidate list of the header, first entry
    first. *)
Variable VALID_BAUD_RATES : list Z.

Definition newline : string := String "013" (String "010" EmptyString).

(** The [debug] macro: the message and then a line break, when a log
    function is set. *)
Definition debug (fmt : string) (args : list LogArg) : M W unit :=
  c <- get_cfg;;
  match log_function c with
  | Some log =>
      call (EvLog fmt args) (log fmt args);;;
      call (EvLog newline []) (log newline [])
  | None => ret tt
  end.

(** The [for] loop of [write], [n] iterations from index [i]. *)
Fixpoint write_loop (f : ascii -> W -> W) (bytes : cstring) (i : Z) (n : nat)
  : M W unit :=
  match n with
  | O => ret tt
  | S n' =>
      c <- lift (char_at bytes i);;
      call (EvWrite c) (f c);;;
      write_loop f bytes (i + 1) n'
  end.

Definition write (bytes : cstring) (size : Z) : M W unit :=
  c <- get_cfg;;
  match write_function c with
  | Some f => write_loop f bytes 0 (Z.to_nat size)
  | None => ret tt
  end.

Definition delay_ms (ms : Z) : M W unit :=
  c <- get_cfg;;
  match delay_function c with
  | Some f => call (EvDelay ms) (f ms)
  | None => ret tt
  end.

(** The [while] loop of [read].  [buffer] holds the cells written so far,
    [buffer[0 .. bytes_read - 1]].  The two counters are incremented only
    while below [size] and [max_retries], so they never leave the range of
    [int].  Without fuel left for an iteration the loop has no result. *)
Fixpoint read_loop (fuel : nat) (size max_retries bytes_read retries : Z)
                   (buffer : list ascii) : M W (Z * list ascii) :=
  if (bytes_read <? size) && (retries <? max_retries) then
    match fuel with
    | O => fault
    | S fuel' =>
        byte <- call_read;;
        if byte =? -1 then
          delay_ms RETRY_DELAY_MS;;;
          read_loop fuel' size max_retries bytes_read (retries + 1) buffer
        else
          read_loop fuel' size max_retries (bytes_read + 1) retries
                    (buffer ++ [char_of_int byte])
    end
  else ret (bytes_read, buffer).

Definition read_fuel (size max_retries : Z) : nat :=
  Z.to_nat size + Z.to_nat max_retries.

(** [read]: the count of bytes read, with the bytes stored. *)
Definition read (size max_retries : Z) : M W (Z * list ascii) :=
  read_loop (read_fuel size max_retries) size max_retries 0 0 [].

(** [check_response].  [response] is the bytes stored so far; the [%s]
    argument of the second log line stands for them, where the code hands
    the log function the array itself, unterminated.  Only the text of
    that line depends on it. *)
Definition check_response (response : list ascii) (response_length : Z)
    (expected : list ascii) (expected_length : Z) : M W bool :=
  if (response_length =? expected_length)
     && (strncmp response expected (size_t_of_int expected_length) =? 0)
  then ret true
  else
    (if negb (response_length =? expected_length)
     then debug "Expected %d bytes in response but received %d"
                [ArgInt expected_length; ArgInt response_length]
     else ret tt);;;
    (if 0 <? response_length
     then debug "Expected %s response but got %s"
                [ArgStr expected; ArgStr response]
     else ret tt);;;
    ret false.

(** [strlen] of a NULL [command] or [expected_response] has no result.
    The response array of [MAX_RESPONSE_LENGTH] cells is kept as the list
    of the bytes stored, which is what the code does as long as no more
    than [MAX_RESPONSE_LENGTH] bytes are stored; [response_fits] is the
    condition on the descriptor that ensures it. *)
Definition command_request (command expected_response : cstring) : M W bool :=
  match command, expected_response with
  | Some cmd, Some expected =>
      write command (chars_strlen cmd);;;
      c <- get_cfg;;
      delay_ms (response_delay_ms (platform c));;;
      r <- read (chars_strlen expected) MAX_RETRIES;;
      check_response (snd r) (fst r) expected (chars_strlen expected)
  | _, _ => fault
  end.

Definition initialize_baud (b : Z) : M W bool :=
  c <- get_cfg;;
  match baud_rate_initializer c with
  | Some init =>
      debug "Initializing at baud %d" [ArgInt b];;;
      call (EvBaud b) (init b);;;
      modify_cfg (with_baud b);;;
      ret true
  | None =>
      debug "No baud rate initializer set, can't change baud - trying anyway" [];;;
      ret false
  end.

(** The body of the discovery loop up to the test of the round trip. *)
Definition probe_candidate (b : Z) : M W bool :=
  initialize_baud b;;;
  debug "Attempting to enter command mode" [];;;
  c <- get_cfg;;
  command_request
    (request_format (enter_command_mode_command (platform c)))
    (expected_response (enter_command_mode_command (platform c))).

(** The [for] loop of [at_commander_enter_command_mode]: [candidates] is
    the part of [VALID_BAUD_RATES] from [baud_index] on.  A successful
    round trip sets [connected] and breaks out of the loop. *)
Fixpoint probe_candidates (candidates : list Z) : M W unit :=
  match candidates with
  | [] => ret tt
  | b :: rest =>
      ok <- probe_candidate b;;
      if ok then modify_cfg (with_connected true)
      else probe_candidates rest
  end.

Definition at_commander_enter_command_mode : M W bool :=
  c <- get_cfg;;
  (if negb (connected c) then
     probe_candidates VALID_BAUD_RATES;;;
     c1 <- get_cfg;;
     if connected c1
     then debug "Initialized UART and entered command mode at baud %d"
                [ArgInt (baud c1)]
     else debug "Unable to enter command mode at any baud rate" []
   else debug "Already in command mode" []);;;
  c2 <- get_cfg;;
  ret (connected c2).

Definition at_commander_exit_command_mode : M W bool :=
  c <- get_cfg;;
  if connected c then
    ok <- command_request
            (request_format (exit_command_mode_command (platform c)))
            (expected_response (exit_command_mode_command (platform c)));;
    if ok then
      debug "Switched back to data mode" [];;;
      modify_cfg (with_connected false);;;
      ret true
    else
      debug "Unable to exit command mode" [];;;
      ret false
  else
    debug "Not in command mode" [];;;
    ret true.

Definition at_commander_reboot : M W bool :=
  ok <- at_commander_enter_command_mode;;
  if ok then
    c <- get_cfg;;
    write (request_format (reboot_command (platform c))) 5;;;
    debug "Rebooting RN-42" [];;;
    ret true
  else
    debug "Unable to enter command mode, can't reboot" [];;;
    ret false.

Definition at_commander_store_settings : M W bool :=
  c <- get_cfg;;
  match request_format (store_settings_command (platform c)),
        expected_response (store_settings_command (platform c)) with
  | Some _, Some _ =>
      ok <- command_request
              (request_format (store_settings_command (platform c)))
              (expected_response (store_settings_command (platform c)));;
      if ok then
        debug "Stored settings into flash memory" [];;;
        ret true
      else
        debug "Unable to store settings in flash memory" [];;;
        ret false
  | _, _ => ret false
  end.

(** [sprintf] into [char command[5]]: a NULL template has no result, and
    neither has a text that with its NUL does not fit the five cells,
    since the call then writes past the array.  A template with a
    directive other than one [%d] is outside what [format] renders and has
    no result here either. *)
Definition at_commander_set_baud (new_baud : Z) : M W bool :=
  ok <- at_commander_enter_command_mode;;
  if ok then
    c <- get_cfg;;
    command <- lift (set_baud_command (platform c) new_baud);;
    if template_modelled (platform c) && command_fits command then
      ok' <- command_request (Some command)
               (expected_response (set_baud_rate_command (platform c)));;
      if ok' then
        debug "Changed device baud rate to %d" [ArgInt new_baud];;;
        modify_cfg (with_device_baud new_baud);;;
        at_commander_store_settings;;;
        ret true
      else
        debug "Unable to change device baud rate" [];;;
        ret false
    else fault
  else
    debug "Unable to enter command mode, can't set baud rate" [];;;
    ret false.

End Driver.

Arguments debug {W}.
Arguments write_loop {W}.
Arguments write {W}.
Arguments delay_ms {W}.
Arguments read_loop {W}.
Arguments read {W}.
Arguments check_response {W}.
Arguments command_request {W}.
Arguments initialize_baud {W}.
Arguments probe_candidate {W}.
Arguments probe_candidates {W}.
Arguments at_commander_enter_command_mode {W}.
Arguments at_commander_exit_command_mode {W}.
Arguments at_commander_reboot {W}.
Arguments at_commander_store_settings {W}.
Arguments at_commander_set_baud {W}.

(** ** Relations used to state the properties *)

(** [fails bs st st']: from [st], the candidates [bs] are probed one after
    the other, each once, every round trip fails, and the machine is left
    in [st']. *)
Inductive fails {W : Type} : list Z -> Machine W -> Machine W -> Prop :=
| fails_nil : forall st, fails [] st st
| fails_cons : forall b bs st st1 st2,
    probe_candidate b st = Some (false, st1) ->
    fails bs st1 st2 ->
    fails (b :: bs) st st2.

(** The function pointers and the platform of two configurations agree. *)
Definition same_setup {W : Type} (c c' : AtCommanderConfig W) : Prop :=
  platform c' = platform c
  /\ baud_rate_initializer c' = baud_rate_initializer c
  /\ write_function c' = write_function c
  /\ read_function c' = read_function c
  /\ delay_function c' = delay_function c
  /\ log_function c' = log_function c.

(** [st'] is [st] after some log lines: same configuration, same
    transport calls. *)
Definition logged {W : Type} (st st' : Machine W) : Prop :=
  cfg st' = cfg st
  /\ (exists ev, trace st' = trace st ++ ev /\ forallb is_log ev = true)
  /\ (log_function (cfg st) = None -> st' = st).

(** The characters [strlen] counts. *)
Definition text (s : list ascii) : list ascii :=
  firstn (Z.to_nat (chars_strlen s)) s.

Definition nul_free (s : list ascii) : Prop :=
  forall c, In c s -> is_nul c = false.

(** ** Predicates on executions *)

Section Executions.

Variable W : Type.

(** The writes of a request: its text when a write function is set. *)
Definition writes_of (c : AtCommanderConfig W) (s : list ascii) : list Event :=
  match write_function c with
  | Some _ => map EvWrite (text s)
  | None => []
  end.

Definition delay_of (c : AtCommanderConfig W) (ms : Z) : list Event :=
  match delay_function c with
  | Some _ => [EvDelay ms]
  | None => []
  end.

Definition is_poll (e : Event) : bool :=
  match e with
  | EvRead _ => true
  | EvDelay ms => ms =? RETRY_DELAY_MS
  | _ => false
  end.

(** What an execution of the loop of [read] that made the calls [ev]
    returns, from [bytes_read] bytes and [retries] retries. *)
Definition read_result (c : AtCommanderConfig W) (size max_retries br rt : Z)
    (buf : list ascii) (ev : list Event) (n : Z) (buf' : list ascii) : Prop :=
  forallb is_poll ev = true
  /\ buf' = buf ++ received ev
  /\ n = br + Z.of_nat (length (received ev))
  /\ (size <= n \/ max_retries <= rt + empty_polls ev)
  /\ n <= Z.max br size
  /\ rt + empty_polls ev <= Z.max rt max_retries
  /\ (forall ev1 r ev2, ev = ev1 ++ EvRead r :: ev2 ->
        br + Z.of_nat (length (received ev1)) < size
        /\ rt + empty_polls ev1 < max_retries)
  /\ delays ev = match delay_function c with
                 | Some _ => repeat RETRY_DELAY_MS (Z.to_nat (empty_polls ev))
                 | None => []
                 end.

(** The test [check_response] returns true on. *)
Definition matches (response : list ascii) (response_length : Z)
    (expected : list ascii) (expected_length : Z) : bool :=
  (response_length =? expected_length)
  && (strncmp response expected (size_t_of_int expected_length) =? 0).

(** The calls of one execution of [command_request] and its verdict. *)
Definition round_trip (c : AtCommanderConfig W) (cmd expected : list ascii)
    (ev : list Event) (ok : bool) : Prop :=
  exists pv lv n buf,
    ev = writes_of c cmd ++ delay_of c (response_delay_ms (platform c)) ++ pv ++ lv
    /\ read_result c (chars_strlen expected) MAX_RETRIES 0 0 [] pv n buf
    /\ forallb is_log lv = true
    /\ ok = matches buf n expected (chars_strlen expected).

(** What switching to the candidate [b] leaves behind. *)
Definition switched (b : Z) (st st' : Machine W) : Prop :=
  same_setup (cfg st) (cfg st')
  /\ connected (cfg st') = connected (cfg st)
  /\ device_baud (cfg st') = device_baud (cfg st)
  /\ match baud_rate_initializer (cfg st) with
     | Some _ => baud (cfg st') = b /\ bauds (trace st') = bauds (trace st) ++ [b]
     | None => baud (cfg st') = baud (cfg st) /\ bauds (trace st') = bauds (trace st)
     end.

(** The outcome of a discovery pass over [candidates] from [st], for a
    profile whose enter request is [req]. *)
Definition discovery_outcome (candidates : list Z) (st : Machine W)
    (req : list ascii) : Prop :=
  exists r st',
    at_commander_enter_command_mode candidates st = Some (r, st')
    /\ r = connected (cfg st')
    /\ ((r = true
         /\ exists pre b post st1 st2,
              candidates = pre ++ b :: post
              /\ fails pre st st1
              /\ probe_candidate b st1 = Some (true, st2)
              /\ logged (mkMachine (with_connected true (cfg st2))
                                   (world st2) (trace st2)) st'
              /\ (baud_rate_initializer (cfg st) <> None ->
                    baud (cfg st') = b
                    /\ bauds (trace st') = bauds (trace st) ++ pre ++ [b])
              /\ (baud_rate_initializer (cfg st) = None ->
                    baud (cfg st') = baud (cfg st))
              /\ (write_function (cfg st) <> None ->
                    written (trace st') = written (trace st)
                      ++ concat (repeat (text req) (S (length pre)))))
        \/ (r = false
            /\ exists st1,
                 fails candidates st st1
                 /\ logged st1 st'
                 /\ (baud_rate_initializer (cfg st) <> None ->
                       bauds (trace st') = bauds (trace st) ++ candidates)
                 /\ (write_function (cfg st) <> None ->
                       written (trace st') = written (trace st)
                         ++ concat (repeat (text req) (length candidates))))).
End Executions.

Arguments writes_of {W}.
Arguments delay_of {W}.
Arguments read_result {W}.
Arguments round_trip {W}.
Arguments switched {W}.
Arguments discovery_outcome {W}.

(** ** Sessions for examples *)

(** A world that is the queue of the results the next polls return. *)
Definition script := list Z.

Definition script_read (w : script) : Z * script :=
  match w with
  | [] => (-1, [])
  | r :: w' => (r, w')
  end.

Definition keep {A : Type} (_ : A) (w : script) : script := w.

Definition codes (s : cstring) : list Z :=
  match s with
  | Some l => map code l
  | None => []
  end.

(** A candidate list with 1200 first and 9600 second. *)
Definition sample_bauds : list Z :=
  [1200; 9600; 19200; 38400; 57600; 115200].

(** A session with every transport function and no log. *)
Definition session (p : AtCommanderPlatform) (conn : bool)
  : AtCommanderConfig script :=
  mkConfig p (Some keep) (Some keep) script_read (Some keep) None conn 0 0.

(** The same without a baud rate initializer. *)
Definition session_no_initializer (p : AtCommanderPlatform)
  : AtCommanderConfig script :=
  mkConfig p None (Some keep) script_read (Some keep) None false 0 0.

(** The same with a log function. *)
Definition session_logging (p : AtCommanderPlatform) (conn : bool)
  : AtCommanderConfig script :=
  mkConfig p (Some keep) (Some keep) script_read (Some keep)
           (Some (fun _ _ w => w)) conn 0 0.

Definition start (c : AtCommanderConfig script) (w : script)
  : Machine script :=
  mkMachine c w [].

Definition rn42 : AtCommanderPlatform := AT_PLATFORM_RN42 10.
Definition xbee : AtCommanderPlatform := AT_PLATFORM_XBEE 0.

(** A profile whose reboot request has six characters. *)
Definition long_reboot : AtCommanderPlatform :=
  mkPlatform 10 None
    (mkAtCommand (lit "+++") (lit "OK"))
    (mkAtCommand None None)
    (mkAtCommand (lit_crlf "ATBD %d") (lit_crlf "OK"))
    (mkAtCommand None None)
    (mkAtCommand (lit_crlf "ATFR") None).

(** The scenario of a device that answers at the second candidate: three
    empty polls, then the expected response. *)
Definition scenario : Machine script :=
  start (session rn42 false) ([-1; -1; -1] ++ codes (lit_crlf "CMD")).

(** The machine a discovery pass on [scenario] leaves. *)
Definition entered : Machine script :=
  match at_commander_enter_command_mode sample_bauds scenario with
  | Some (_, st) => st
  | None => scenario
  end.

(** A device that answers at once, driven without a baud rate
    initializer. *)
Definition no_initializer : Machine script :=
  start (session_no_initializer rn42) (codes (lit_crlf "CMD")).

(** ** Further observations *)

(** The number of calls of [read_function] in a trace. *)
Fixpoint read_calls (t : list Event) : Z :=
  match t with
  | [] => 0
  | EvRead _ :: t' => 1 + read_calls t'
  | _ :: t' => read_calls t'
  end.

(** The machine a computation leaves, when it has a result. *)
Definition outcome {W A : Type} (m : M W A) (st : Machine W) : Machine W :=
  match m st with
  | Some (_, st') => st'
  | None => st
  end.

(** The cells of the array behind a string: its characters and the
    terminator. *)
Definition cells (s : list ascii) : list ascii := s ++ [NUL].

(** A profile whose set-baud request is short enough for [command]:
    ["B%d"] with the XBee codes gives two characters. *)
Definition short_request : AtCommanderPlatform :=
  mkPlatform 10 (Some (xbee_baud_rate_mapper 0))
    (mkAtCommand (lit "+++") (lit "OK"))
    (mkAtCommand None None)
    (mkAtCommand (lit "B%d") (lit "OK"))
    (mkAtCommand None None)
    (mkAtCommand None None).

(** A profile whose enter descriptor expects the empty string. *)
Definition silent_entry : AtCommanderPlatform :=
  mkPlatform 10 None
    (mkAtCommand (lit "+++") (lit ""))
    (mkAtCommand (lit "---") (lit_crlf "END"))
    (mkAtCommand (lit_crlf "SU,%d") (lit_crlf "AOK"))
    (mkAtCommand None None)
    (mkAtCommand (lit_crlf "R,1") None).

(** * Properties *)

(** ** The profiles *)

(** Every expected response of the two profiles fits the response array of
    [command_request], so keeping that array as a list loses nothing on
    them. *)
Lemma profile_responses_fit (delay value0 : Z) :
  forall p, p = AT_PLATFORM_RN42 delay \/ p = AT_PLATFORM_XBEE value0 ->
    response_fits (enter_command_mode_command p) = true
    /\ response_fits (exit_command_mode_command p) = true
    /\ response_fits (set_baud_rate_command p) = true
    /\ response_fits (store_settings_command p) = true
    /\ response_fits (reboot_command p) = true.
Proof. intros p [H|H]; subst p; repeat split. Qed.

(** ** Traces *)

Lemma written_app t u : written (t ++ u) = written t ++ written u.
Proof.
  induction t as [|e t IH]; simpl; [reflexivity|].
  destruct e; simpl; rewrite IH; reflexivity.
Qed.

Lemma bauds_app t u : bauds (t ++ u) = bauds t ++ bauds u.
Proof.
  induction t as [|e t IH]; simpl; [reflexivity|].
  destruct e; simpl; rewrite IH; reflexivity.
Qed.

Lemma delays_app t u : delays (t ++ u) = delays t ++ delays u.
Proof.
  induction t as [|e t IH]; simpl; [reflexivity|].
  destruct e; simpl; rewrite IH; reflexivity.
Qed.

Lemma received_app t u : received (t ++ u) = received t ++ received u.
Proof.
  induction t as [|e t IH]; simpl; [reflexivity|].
  destruct e; simpl; try assumption.
  destruct (result =? -1); simpl; rewrite IH; reflexivity.
Qed.

Lemma empty_polls_app t u : empty_polls (t ++ u) = empty_polls t + empty_polls u.
Proof.
  induction t as [|e t IH]; simpl; [reflexivity|].
  destruct e; simpl; try assumption.
  rewrite IH. lia.
Qed.

Lemma traffic_app t u : traffic (t ++ u) = traffic t ++ traffic u.
Proof. apply filter_app. Qed.

Lemma empty_polls_nonneg t : 0 <= empty_polls t.
Proof.
  induction t as [|e t IH]; simpl; [lia|].
  destruct e; try assumption.
  destruct (result =? -1); lia.
Qed.

Section LogLines.

Variable ev : list Event.
Hypothesis only_log : forallb is_log ev = true.

Lemma log_traffic : traffic ev = [].
Proof.
  revert only_log. induction ev as [|e t IH]; simpl; [reflexivity|].
  destruct e; simpl; try discriminate. exact IH.
Qed.

Lemma log_written : written ev = [].
Proof.
  revert only_log. induction ev as [|e t IH]; simpl; [reflexivity|].
  destruct e; simpl; try discriminate. exact IH.
Qed.

Lemma log_bauds : bauds ev = [].
Proof.
  revert only_log. induction ev as [|e t IH]; simpl; [reflexivity|].
  destruct e; simpl; try discriminate. exact IH.
Qed.

End LogLines.

(** ** Running computations *)

Section Steps.

Variable W : Type.
Implicit Types st : Machine W.

Lemma bind_run {A B} (m : M W A) (k : A -> M W B) st a st1 :
  m st = Some (a, st1) -> bind m k st = k a st1.
Proof. intros E. unfold bind. rewrite E. reflexivity. Qed.

Lemma bind_inv {A B} (m : M W A) (k : A -> M W B) st b st2 :
  bind m k st = Some (b, st2) ->
  exists a st1, m st = Some (a, st1) /\ k a st1 = Some (b, st2).
Proof.
  unfold bind. destruct (m st) as [[a st1]|]; [|discriminate].
  intros E. exists a, st1. split; [reflexivity | exact E].
Qed.

Lemma same_setup_refl (c : AtCommanderConfig W) : same_setup c c.
Proof. repeat split. Qed.

Lemma same_setup_trans (c1 c2 c3 : AtCommanderConfig W) :
  same_setup c1 c2 -> same_setup c2 c3 -> same_setup c1 c3.
Proof.
  unfold same_setup. intros (a1 & a2 & a3 & a4 & a5 & a6) (b1 & b2 & b3 & b4 & b5 & b6).
  repeat split; congruence.
Qed.

Lemma logged_refl st : logged st st.
Proof.
  split; [reflexivity|]. split; [|reflexivity].
  exists []. rewrite app_nil_r. split; reflexivity.
Qed.

Lemma logged_trans st1 st2 st3 : logged st1 st2 -> logged st2 st3 -> logged st1 st3.
Proof.
  intros (C1 & (e1 & T1 & L1) & N1) (C2 & (e2 & T2 & L2) & N2).
  split; [congruence|]. split.
  - exists (e1 ++ e2). rewrite T2, T1, app_assoc. split; [reflexivity|].
    rewrite forallb_app, L1, L2. reflexivity.
  - intros H. rewrite N2; [apply N1; exact H|]. rewrite C1. exact H.
Qed.

Lemma logged_traffic st st' : logged st st' -> traffic (trace st') = traffic (trace st).
Proof.
  intros (_ & (ev & T & L) & _). rewrite T, traffic_app, (log_traffic _ L).
  apply app_nil_r.
Qed.

Lemma logged_written st st' : logged st st' -> written (trace st') = written (trace st).
Proof.
  intros (_ & (ev & T & L) & _). rewrite T, written_app, (log_written _ L).
  apply app_nil_r.
Qed.

Lemma logged_bauds st st' : logged st st' -> bauds (trace st') = bauds (trace st).
Proof.
  intros (_ & (ev & T & L) & _). rewrite T, bauds_app, (log_bauds _ L).
  apply app_nil_r.
Qed.

Lemma debug_run fmt args st :
  exists st', debug fmt args st = Some (tt, st') /\ logged st st'.
Proof.
  unfold debug, bind, get_cfg, call, ret.
  destruct (log_function (cfg st)) as [log|] eqn:L.
  - eexists. split; [reflexivity|]. simpl. split; [reflexivity|]. split.
    + exists [EvLog fmt args; EvLog newline []]. rewrite <- app_assoc. split; reflexivity.
    + intros H. congruence.
  - exists st. split; [reflexivity | apply logged_refl].
Qed.


(** ** Writing, sleeping *)

Lemma chars_strlen_bounds (s : list ascii) :
  0 <= chars_strlen s <= Z.of_nat (length s).
Proof.
  induction s as [|c t IH]; [simpl; lia|].
  change (chars_strlen (c :: t)) with (if is_nul c then 0 else 1 + chars_strlen t).
  change (length (c :: t)) with (S (length t)).
  destruct (is_nul c); lia.
Qed.

Lemma chars_strlen_nul_free (s : list ascii) :
  nul_free s -> chars_strlen s = Z.of_nat (length s).
Proof.
  induction s as [|c t IH]; intros H; [reflexivity|].
  change (chars_strlen (c :: t)) with (if is_nul c then 0 else 1 + chars_strlen t).
  change (length (c :: t)) with (S (length t)).
  rewrite (H c (or_introl eq_refl)), IH; [lia|].
  intros d Hd. apply H. right. exact Hd.
Qed.

Lemma skipn_cons_nth {A} (l : list A) i x :
  nth_error l i = Some x -> skipn i l = x :: skipn (S i) l.
Proof.
  revert i. induction l as [|y l IH]; intros [|i] E; simpl in *; try discriminate.
  - congruence.
  - apply IH. exact E.
Qed.

Lemma write_loop_run f s n : forall i st,
  (i + n <= length s)%nat ->
  exists st',
    write_loop f (Some s) (Z.of_nat i) n st = Some (tt, st')
    /\ cfg st' = cfg st
    /\ trace st' = trace st ++ map EvWrite (firstn n (skipn i s)).
Proof.
  induction n as [|n IH]; intros i st Hn.
  - exists st. simpl. rewrite app_nil_r. repeat split.
  - destruct (nth_error s i) as [x|] eqn:Ex.
    2:{ apply nth_error_None in Ex. lia. }
    assert (Ec : char_at (Some s) (Z.of_nat i) = Some x).
    { unfold char_at.
      destruct (Z.ltb_spec (Z.of_nat i) 0); [lia|].
      destruct (Z.ltb_spec (Z.of_nat i) (Z.of_nat (length s))); [|lia].
      rewrite Nat2Z.id. exact Ex. }
    destruct (IH (S i) (mkMachine (cfg st) (f x (world st)) (trace st ++ [EvWrite x])))
      as (st' & E & C & T); [lia|].
    exists st'. split; [|split].
    + cbn [write_loop]. unfold bind at 1. rewrite Ec. cbn [lift ret].
      unfold bind at 1. unfold call at 1.
      replace (Z.of_nat i + 1) with (Z.of_nat (S i)) by lia. exact E.
    + exact C.
    + rewrite T. simpl trace. rewrite (skipn_cons_nth _ _ _ Ex).
      simpl. rewrite <- app_assoc. reflexivity.
Qed.

Lemma write_text s st :
  exists st',
    write (Some s) (chars_strlen s) st = Some (tt, st')
    /\ cfg st' = cfg st
    /\ trace st' = trace st ++ writes_of (cfg st) s.
Proof.
  unfold write, writes_of, bind, get_cfg.
  destruct (write_function (cfg st)) as [f|].
  - pose proof (chars_strlen_bounds s) as B.
    destruct (write_loop_run f s (Z.to_nat (chars_strlen s)) 0%nat st) as (st' & E & C & T);
      [lia|].
    exists st'. repeat split; assumption.
  - exists st. rewrite app_nil_r. repeat split.
Qed.

Lemma delay_ms_run ms st :
  exists st',
    delay_ms ms st = Some (tt, st')
    /\ cfg st' = cfg st
    /\ trace st' = trace st ++ delay_of (cfg st) ms.
Proof.
  unfold delay_ms, delay_of, bind, get_cfg, call.
  destruct (delay_function (cfg st)) as [f|].
  - eexists. repeat split.
  - exists st. rewrite app_nil_r. repeat split.
Qed.


(** ** The retrying read *)

Lemma split_at_read (d ev ev1 ev2 : list Event) r :
  forallb (fun e => match e with EvRead _ => false | _ => true end) d = true ->
  d ++ ev = ev1 ++ EvRead r :: ev2 ->
  exists ev1', ev1 = d ++ ev1' /\ ev = ev1' ++ EvRead r :: ev2.
Proof.
  revert ev1. induction d as [|e d IH]; intros ev1 Hd E.
  - exists ev1. split; [reflexivity | exact E].
  - simpl in Hd. apply andb_true_iff in Hd. destruct Hd as [He Hd].
    destruct ev1 as [|e1 ev1]; simpl in E.
    + inversion E; subst. discriminate.
    + inversion E; subst. destruct (IH ev1 Hd H1) as (ev1' & E1 & E2).
      exists ev1'. split; [simpl; f_equal; exact E1 | exact E2].
Qed.

Lemma read_result_exit (c : AtCommanderConfig W) size max_retries br rt buf :
  (br <? size) && (rt <? max_retries) = false ->
  read_result c size max_retries br rt buf [] br buf.
Proof.
  intros Hc. apply andb_false_iff in Hc. unfold read_result. simpl.
  split; [reflexivity|]. split; [rewrite app_nil_r; reflexivity|].
  split; [lia|]. split.
  { destruct Hc as [H|H]; apply Z.ltb_ge in H; lia. }
  split; [lia|]. split; [lia|]. split.
  { intros ev1 r ev2 E. destruct ev1; discriminate. }
  destruct (delay_function c); reflexivity.
Qed.

Lemma read_loop_run fuel : forall size max_retries br rt buf st,
  (Z.to_nat (size - br) + Z.to_nat (max_retries - rt) <= fuel)%nat ->
  exists n buf' st' ev,
    read_loop fuel size max_retries br rt buf st = Some ((n, buf'), st')
    /\ cfg st' = cfg st
    /\ trace st' = trace st ++ ev
    /\ read_result (cfg st) size max_retries br rt buf ev n buf'.
Proof.
  induction fuel as [|fuel IH]; intros size max_retries br rt buf st Hf.
  - cbn [read_loop].
    destruct ((br <? size) && (rt <? max_retries)) eqn:Hc.
    + apply andb_true_iff in Hc. destruct Hc as [H1 H2].
      apply Z.ltb_lt in H1. apply Z.ltb_lt in H2. lia.
    + exists br, buf, st, []. rewrite app_nil_r.
      repeat (split; [reflexivity|]). apply read_result_exit. exact Hc.
  - cbn [read_loop].
    destruct ((br <? size) && (rt <? max_retries)) eqn:Hc.
    2:{ exists br, buf, st, []. rewrite app_nil_r.
        repeat (split; [reflexivity|]). apply read_result_exit. exact Hc. }
    apply andb_true_iff in Hc. destruct Hc as [H1 H2].
    apply Z.ltb_lt in H1. apply Z.ltb_lt in H2.
    unfold bind at 1. unfold call_read at 1.
    destruct (read_function (cfg st) (world st)) as [r w] eqn:Er.
    destruct (r =? -1) eqn:Hr.
    + destruct (delay_ms_run RETRY_DELAY_MS
                  (mkMachine (cfg st) w (trace st ++ [EvRead r])))
        as (st2 & E2 & C2 & T2).
      cbn [cfg trace] in C2, T2.
      rewrite (bind_run _ _ _ _ _ E2).
      destruct (IH size max_retries br (rt + 1) buf st2) as (n & buf' & st' & ev & E & C & T & R);
        [lia|].
      exists n, buf', st', (EvRead r :: delay_of (cfg st) RETRY_DELAY_MS ++ ev).
      split; [exact E|]. split; [rewrite C, C2; reflexivity|]. split.
      { rewrite T, T2, <- !app_assoc. reflexivity. }
      destruct R as (R1 & R2 & R3 & R4 & R5 & R6 & R7 & R8).
      assert (Hd : received (delay_of (cfg st) RETRY_DELAY_MS) = []
                   /\ empty_polls (delay_of (cfg st) RETRY_DELAY_MS) = 0).
      { unfold delay_of. destruct (delay_function (cfg st)); split; reflexivity. }
      destruct Hd as [Hd1 Hd2].
      pose proof (empty_polls_nonneg ev) as Hnn.
      assert (Hp : empty_polls (EvRead r :: delay_of (cfg st) RETRY_DELAY_MS ++ ev)
                   = 1 + empty_polls ev).
      { cbn [empty_polls]. rewrite Hr, empty_polls_app, Hd2. lia. }
      assert (Hv : received (EvRead r :: delay_of (cfg st) RETRY_DELAY_MS ++ ev)
                   = received ev).
      { cbn [received]. rewrite Hr, received_app, Hd1. reflexivity. }
      unfold read_result. rewrite Hp, Hv.
      split.
      { simpl. rewrite forallb_app, R1. unfold delay_of.
        destruct (delay_function (cfg st)); reflexivity. }
      split; [exact R2|]. split; [exact R3|].
      split; [lia|]. split; [lia|]. split; [lia|]. split.
      { intros ev1 r' ev2 Hs. destruct ev1 as [|e1 ev1].
        - cbn [received empty_polls length]. lia.
        - simpl in Hs. inversion Hs; subst e1.
          destruct (split_at_read (delay_of (cfg st) RETRY_DELAY_MS) ev ev1 ev2 r')
            as (ev1' & E1 & E1'); [|assumption|].
          { unfold delay_of. destruct (delay_function (cfg st)); reflexivity. }
          destruct (R7 ev1' r' ev2 E1') as [Q1 Q2]. subst ev1.
          cbn [received empty_polls]. rewrite Hr, received_app, empty_polls_app, Hd1, Hd2.
          cbn [app]. lia. }
      { cbn [delays]. rewrite delays_app, R8, C2.
        unfold delay_of. destruct (delay_function (cfg st)); [|reflexivity].
        replace (Z.to_nat (1 + empty_polls ev)) with (S (Z.to_nat (empty_polls ev))) by lia.
        reflexivity. }
    + destruct (IH size max_retries (br + 1) rt (buf ++ [char_of_int r])
                  (mkMachine (cfg st) w (trace st ++ [EvRead r])))
        as (n & buf' & st' & ev & E & C & T & R); [lia|].
      cbn [cfg trace] in C, T, R.
      exists n, buf', st', (EvRead r :: ev).
      split; [exact E|]. split; [exact C|]. split.
      { rewrite T, <- app_assoc. reflexivity. }
      destruct R as (R1 & R2 & R3 & R4 & R5 & R6 & R7 & R8).
      unfold read_result. cbn [received empty_polls forallb is_poll delays]. rewrite Hr.
      cbn [length andb]. rewrite Z.add_0_l.
      split; [exact R1|]. split; [rewrite R2, <- app_assoc; reflexivity|].
      split; [lia|]. split; [lia|]. split; [lia|]. split; [lia|]. split.
      { intros ev1 r' ev2 Hs. destruct ev1 as [|e1 ev1].
        - cbn [received empty_polls length]. lia.
        - simpl in Hs. inversion Hs; subst e1.
          destruct (R7 ev1 r' ev2 H3) as [Q1 Q2].
          cbn [received empty_polls]. rewrite Hr. cbn [length]. lia. }
      { exact R8. }
Qed.


Lemma poll_written ev : forallb is_poll ev = true -> written ev = [].
Proof.
  induction ev as [|e t IH]; simpl; [reflexivity|].
  destruct e; simpl; try discriminate; intros H;
    try (apply andb_true_iff in H; destruct H as [_ H]); auto.
Qed.

Lemma poll_bauds ev : forallb is_poll ev = true -> bauds ev = [].
Proof.
  induction ev as [|e t IH]; simpl; [reflexivity|].
  destruct e; simpl; try discriminate; intros H;
    try (apply andb_true_iff in H; destruct H as [_ H]); auto.
Qed.

Lemma read_run size max_retries st :
  exists n buf st' ev,
    read size max_retries st = Some ((n, buf), st')
    /\ cfg st' = cfg st
    /\ trace st' = trace st ++ ev
    /\ read_result (cfg st) size max_retries 0 0 [] ev n buf.
Proof.
  unfold read, read_fuel. apply read_loop_run. lia.
Qed.

(** ** One request and its response *)

Lemma check_response_run response rl expected el st :
  exists st',
    check_response response rl expected el st
      = Some (matches response rl expected el, st')
    /\ logged st st'.
Proof.
  unfold check_response, matches.
  destruct ((rl =? el) && (strncmp response expected (size_t_of_int el) =? 0)).
  - exists st. split; [reflexivity | apply logged_refl].
  - assert (H1 : exists st1,
        (if negb (rl =? el)
         then debug "Expected %d bytes in response but received %d"
                    [ArgInt el; ArgInt rl]
         else ret tt) st = Some (tt, st1) /\ logged st st1).
    { destruct (negb (rl =? el)).
      - apply debug_run.
      - exists st. split; [reflexivity | apply logged_refl]. }
    destruct H1 as (st1 & E1 & L1).
    assert (H2 : exists st2,
        (if 0 <? rl
         then debug "Expected %s response but got %s"
                    [ArgStr expected; ArgStr response]
         else ret tt) st1 = Some (tt, st2) /\ logged st1 st2).
    { destruct (0 <? rl).
      - apply debug_run.
      - exists st1. split; [reflexivity | apply logged_refl]. }
    destruct H2 as (st2 & E2 & L2).
    exists st2. split.
    + rewrite (bind_run _ _ _ _ _ E1), (bind_run _ _ _ _ _ E2). reflexivity.
    + eapply logged_trans; eassumption.
Qed.

Lemma command_request_run cmd expected st :
  exists ok st' ev,
    command_request (Some cmd) (Some expected) st = Some (ok, st')
    /\ cfg st' = cfg st
    /\ trace st' = trace st ++ ev
    /\ round_trip (cfg st) cmd expected ev ok.
Proof.
  unfold command_request.
  destruct (write_text cmd st) as (st1 & E1 & C1 & T1).
  rewrite (bind_run _ _ _ _ _ E1). unfold bind at 1, get_cfg at 1.
  destruct (delay_ms_run (response_delay_ms (platform (cfg st1))) st1)
    as (st2 & E2 & C2 & T2).
  rewrite (bind_run _ _ _ _ _ E2).
  destruct (read_run (chars_strlen expected) MAX_RETRIES st2)
    as (n & buf & st3 & pv & E3 & C3 & T3 & R3).
  rewrite (bind_run _ _ _ _ _ E3). cbn [fst snd].
  destruct (check_response_run buf n expected (chars_strlen expected) st3)
    as (st4 & E4 & (C4 & (lv & T4 & L4) & _)).
  exists (matches buf n expected (chars_strlen expected)), st4,
    (writes_of (cfg st) cmd
       ++ delay_of (cfg st) (response_delay_ms (platform (cfg st))) ++ pv ++ lv).
  split; [exact E4|]. split; [congruence|]. split.
  - rewrite T4, T3, T2, T1, C1, <- !app_assoc. reflexivity.
  - exists pv, lv, n, buf. split; [reflexivity|].
    split; [|split; [exact L4 | reflexivity]].
    rewrite <- C1, <- C2. exact R3.
Qed.

Lemma command_request_null (cmd expected : cstring) st :
  cmd = None \/ expected = None -> command_request cmd expected st = None.
Proof.
  intros [H|H]; subst; unfold command_request.
  - reflexivity.
  - destruct cmd; reflexivity.
Qed.

Lemma command_request_inv (cmd expected : cstring) st ok st' :
  command_request cmd expected st = Some (ok, st') ->
  exists c e ev,
    cmd = Some c /\ expected = Some e
    /\ cfg st' = cfg st
    /\ trace st' = trace st ++ ev
    /\ round_trip (cfg st) c e ev ok.
Proof.
  intros E. destruct cmd as [c|]; [|discriminate].
  destruct expected as [e|]; [|discriminate].
  destruct (command_request_run c e st) as (ok1 & st1 & ev & E1 & C1 & T1 & R1).
  rewrite E1 in E. inversion E; subst.
  exists c, e, ev. repeat (split; [first [reflexivity | assumption]|]). exact R1.
Qed.

Lemma round_trip_written (c : AtCommanderConfig W) cmd expected ev ok :
  round_trip c cmd expected ev ok -> written ev = written (writes_of c cmd).
Proof.
  intros (pv & lv & n & buf & E & R & L & _). subst ev.
  destruct R as (P & _).
  rewrite !written_app, (poll_written _ P), (log_written _ L), !app_nil_r.
  unfold delay_of. destruct (delay_function c); simpl; rewrite app_nil_r; reflexivity.
Qed.

Lemma round_trip_bauds (c : AtCommanderConfig W) cmd expected ev ok :
  round_trip c cmd expected ev ok -> bauds ev = [].
Proof.
  intros (pv & lv & n & buf & E & R & L & _). subst ev.
  destruct R as (P & _).
  rewrite !bauds_app, (poll_bauds _ P), (log_bauds _ L), !app_nil_r.
  unfold writes_of, delay_of.
  destruct (write_function c), (delay_function c); simpl; try reflexivity;
    induction (text cmd); simpl; auto.
Qed.

Lemma written_writes s : written (map EvWrite s) = s.
Proof. induction s as [|c t IH]; simpl; [|rewrite IH]; reflexivity. Qed.


(** ** Baud rate discovery *)

Lemma initialize_baud_run b st :
  exists r st',
    initialize_baud b st = Some (r, st')
    /\ switched b st st'
    /\ written (trace st') = written (trace st).
Proof.
  unfold initialize_baud, switched. unfold bind at 1, get_cfg at 1.
  destruct (baud_rate_initializer (cfg st)) as [init|] eqn:Ei.
  - destruct (debug_run "Initializing at baud %d" [ArgInt b] st) as (st1 & E1 & L1).
    rewrite (bind_run _ _ _ _ _ E1).
    unfold bind, call, modify_cfg, ret. cbn [cfg world trace].
    eexists. eexists. split; [reflexivity|]. cbn [cfg trace].
    pose proof (logged_written _ _ L1) as Hw. pose proof (logged_bauds _ _ L1) as Hb.
    destruct L1 as (C1 & _). rewrite C1.
    split; [|rewrite written_app, Hw, app_nil_r; reflexivity].
    split; [repeat split|]. split; [reflexivity|]. split; [reflexivity|].
    split; [reflexivity|].
    rewrite bauds_app, Hb. reflexivity.
  - destruct (debug_run "No baud rate initializer set, can't change baud - trying anyway"
                [] st) as (st1 & E1 & L1).
    rewrite (bind_run _ _ _ _ _ E1). unfold ret.
    exists false, st1. split; [reflexivity|].
    pose proof (logged_written _ _ L1) as Hw. pose proof (logged_bauds _ _ L1) as Hb.
    destruct L1 as (C1 & _). rewrite C1.
    split; [|exact Hw].
    split; [apply same_setup_refl|]. repeat split. exact Hb.
Qed.

Lemma probe_candidate_inv b st ok st' :
  probe_candidate b st = Some (ok, st') ->
  exists req expected,
    request_format (enter_command_mode_command (platform (cfg st))) = Some req
    /\ expected_response (enter_command_mode_command (platform (cfg st))) = Some expected
    /\ switched b st st'
    /\ written (trace st') = written (trace st) ++ written (writes_of (cfg st) req).
Proof.
  unfold probe_candidate.
  destruct (initialize_baud_run b st) as (r & st1 & E1 & S1 & W1).
  rewrite (bind_run _ _ _ _ _ E1).
  destruct (debug_run "Attempting to enter command mode" [] st1) as (st2 & E2 & L2).
  rewrite (bind_run _ _ _ _ _ E2). unfold bind at 1, get_cfg at 1.
  intros E. apply command_request_inv in E.
  destruct E as (req & expected & ev & Hq & He & C & T & R).
  pose proof (logged_written _ _ L2) as Hw2. pose proof (logged_bauds _ _ L2) as Hb2.
  destruct L2 as (C2 & _).
  destruct S1 as (Hs & Hc & Hd & Hb).
  assert (Hp : platform (cfg st2) = platform (cfg st)).
  { rewrite C2. apply Hs. }
  rewrite Hp in Hq, He.
  exists req, expected. split; [exact Hq|]. split; [exact He|]. split.
  - unfold switched. rewrite C, C2. split; [exact Hs|]. split; [exact Hc|].
    split; [exact Hd|].
    rewrite T, bauds_app, (round_trip_bauds _ _ _ _ _ R), app_nil_r, Hb2.
    exact Hb.
  - rewrite T, written_app, (round_trip_written _ _ _ _ _ R), Hw2, W1.
    f_equal. unfold writes_of. rewrite C2.
    destruct Hs as (_ & _ & Hwf & _). rewrite Hwf. reflexivity.
Qed.

Lemma probe_candidate_total b st req expected :
  request_format (enter_command_mode_command (platform (cfg st))) = Some req ->
  expected_response (enter_command_mode_command (platform (cfg st))) = Some expected ->
  exists ok st', probe_candidate b st = Some (ok, st').
Proof.
  intros Hq He. unfold probe_candidate.
  destruct (initialize_baud_run b st) as (r & st1 & E1 & S1 & W1).
  rewrite (bind_run _ _ _ _ _ E1).
  destruct (debug_run "Attempting to enter command mode" [] st1) as (st2 & E2 & L2).
  rewrite (bind_run _ _ _ _ _ E2). unfold bind at 1, get_cfg at 1.
  destruct L2 as (C2 & _). destruct S1 as ((Hp & _) & _).
  rewrite C2, Hp, Hq, He.
  destruct (command_request_run req expected st2) as (ok & st' & ev & E & _).
  exists ok, st'. exact E.
Qed.


Lemma writes_of_setup (c c' : AtCommanderConfig W) s :
  same_setup c c' -> writes_of c' s = writes_of c s.
Proof.
  intros (_ & _ & H & _). unfold writes_of. rewrite H. reflexivity.
Qed.

(** What a run of failed probes leaves behind. *)
Lemma fails_effect bs st st' :
  fails bs st st' ->
  same_setup (cfg st) (cfg st')
  /\ connected (cfg st') = connected (cfg st)
  /\ device_baud (cfg st') = device_baud (cfg st)
  /\ bauds (trace st') = bauds (trace st)
       ++ match baud_rate_initializer (cfg st) with
          | Some _ => bs
          | None => []
          end
  /\ (baud_rate_initializer (cfg st) = None -> baud (cfg st') = baud (cfg st))
  /\ (forall req,
        request_format (enter_command_mode_command (platform (cfg st))) = Some req ->
        written (trace st') = written (trace st)
          ++ concat (repeat (written (writes_of (cfg st) req)) (length bs))).
Proof.
  induction 1 as [st | b bs st st1 st2 Hp Hf IH].
  - split; [apply same_setup_refl|]. repeat split.
    + destruct (baud_rate_initializer (cfg st)); rewrite app_nil_r; reflexivity.
    + intros req _. simpl. rewrite app_nil_r. reflexivity.
  - apply probe_candidate_inv in Hp.
    destruct Hp as (req & expected & Hq & He & (S1 & C1 & D1 & B1) & W1).
    destruct IH as (S2 & C2 & D2 & B2 & N2 & W2).
    pose proof S1 as (Hpl & Hin & _).
    split; [eapply same_setup_trans; eassumption|].
    split; [congruence|]. split; [congruence|]. split; [|split].
    + rewrite B2, Hin. destruct (baud_rate_initializer (cfg st)).
      * destruct B1 as [_ B1]. rewrite B1, <- app_assoc. reflexivity.
      * destruct B1 as [_ B1]. rewrite B1. reflexivity.
    + intros Hn. rewrite N2; [|congruence]. rewrite Hn in B1. apply B1.
    + intros req' Hq'. rewrite Hq in Hq'. inversion Hq'; subst req'.
      rewrite (W2 req); [|rewrite Hpl; exact Hq].
      rewrite W1, (writes_of_setup _ _ _ S1), <- app_assoc. reflexivity.
Qed.

Lemma probe_candidates_inv bs : forall st st',
  probe_candidates bs st = Some (tt, st') ->
  (exists pre b post st1 st2,
      bs = pre ++ b :: post
      /\ fails pre st st1
      /\ probe_candidate b st1 = Some (true, st2)
      /\ st' = mkMachine (with_connected true (cfg st2)) (world st2) (trace st2))
  \/ fails bs st st'.
Proof.
  induction bs as [|b bs IH]; intros st st' E.
  - right. inversion E; subst. constructor.
  - cbn [probe_candidates] in E. apply bind_inv in E.
    destruct E as (ok & st1 & Ep & E). destruct ok.
    + left. exists [], b, bs, st, st1.
      split; [reflexivity|]. split; [constructor|]. split; [exact Ep|].
      unfold modify_cfg in E. inversion E. reflexivity.
    + destruct (IH st1 st' E) as [(pre & c & post & s1 & s2 & Hb & Hf & Hp & Hs)|Hf].
      * left. exists (b :: pre), c, post, s1, s2.
        split; [rewrite Hb; reflexivity|].
        split; [econstructor; eassumption|]. split; assumption.
      * right. econstructor; eassumption.
Qed.

Lemma probe_candidates_total bs req expected : forall st,
  request_format (enter_command_mode_command (platform (cfg st))) = Some req ->
  expected_response (enter_command_mode_command (platform (cfg st))) = Some expected ->
  exists st', probe_candidates bs st = Some (tt, st').
Proof.
  induction bs as [|b bs IH]; intros st Hq He.
  - exists st. reflexivity.
  - destruct (probe_candidate_total b st req expected Hq He) as (ok & st1 & Ep).
    cbn [probe_candidates]. rewrite (bind_run _ _ _ _ _ Ep).
    destruct ok.
    + eexists. reflexivity.
    + apply probe_candidate_inv in Ep.
      destruct Ep as (_ & _ & _ & _ & ((Hp & _) & _) & _).
      apply IH; rewrite Hp; assumption.
Qed.


Lemma writes_of_present (c : AtCommanderConfig W) s :
  write_function c <> None -> written (writes_of c s) = text s.
Proof.
  unfold writes_of. destruct (write_function c); [|congruence].
  intros _. apply written_writes.
Qed.

Section Discovery.

Variable VALID_BAUD_RATES : list Z.

Lemma enter_connected st :
  connected (cfg st) = true ->
  exists st', at_commander_enter_command_mode VALID_BAUD_RATES st = Some (true, st') /\ logged st st'.
Proof.
  intros Hc. unfold at_commander_enter_command_mode.
  unfold bind at 1, get_cfg at 1. rewrite Hc. cbn [negb].
  destruct (debug_run "Already in command mode" [] st) as (st' & E & L).
  rewrite (bind_run _ _ _ _ _ E). unfold bind, get_cfg, ret.
  exists st'. split; [|exact L]. destruct L as (C & _). rewrite C, Hc. reflexivity.
Qed.

Lemma enter_disconnected st stp :
  connected (cfg st) = false ->
  probe_candidates VALID_BAUD_RATES st = Some (tt, stp) ->
  exists st', at_commander_enter_command_mode VALID_BAUD_RATES st = Some (connected (cfg stp), st') /\ logged stp st'.
Proof.
  intros Hc Ep.
  assert (H : exists st',
    (if connected (cfg stp)
     then debug "Initialized UART and entered command mode at baud %d"
                [ArgInt (baud (cfg stp))]
     else debug "Unable to enter command mode at any baud rate" []) stp
    = Some (tt, st') /\ logged stp st').
  { destruct (connected (cfg stp)); apply debug_run. }
  destruct H as (st' & E & L).
  unfold at_commander_enter_command_mode.
  exists st'. split; [|exact L].
  unfold bind at 1, get_cfg at 1. rewrite Hc. cbn [negb].
  match goal with
  | |- bind ?m _ _ = _ => assert (Hin : m st = Some (tt, st'))
  end.
  { rewrite (bind_run _ _ _ _ _ Ep). unfold bind, get_cfg. exact E. }
  rewrite (bind_run _ _ _ _ _ Hin). unfold bind, get_cfg, ret.
  destruct L as (C & _). rewrite C. reflexivity.
Qed.

Lemma enter_disconnected_inv st r st' :
  connected (cfg st) = false ->
  at_commander_enter_command_mode VALID_BAUD_RATES st = Some (r, st') ->
  exists stp,
    probe_candidates VALID_BAUD_RATES st = Some (tt, stp)
    /\ logged stp st' /\ r = connected (cfg stp).
Proof.
  intros Hc E.
  destruct (probe_candidates VALID_BAUD_RATES st) as [[[] stp]|] eqn:Ep.
  - destruct (enter_disconnected st stp Hc Ep) as (st1 & E1 & L1).
    rewrite E1 in E. inversion E; subst. exists stp.
    split; [reflexivity|]. split; [assumption | reflexivity].
  - unfold at_commander_enter_command_mode in E.
    unfold bind at 1, get_cfg at 1 in E. rewrite Hc in E. cbn [negb] in E.
    unfold bind in E. rewrite Ep in E. discriminate.
Qed.

(** Whatever the starting state, a call that returns leaves the setup and
    the device baud as they were, and returns the connection flag. *)
Lemma enter_inv st r st' :
  at_commander_enter_command_mode VALID_BAUD_RATES st = Some (r, st') ->
  r = connected (cfg st')
  /\ same_setup (cfg st) (cfg st')
  /\ device_baud (cfg st') = device_baud (cfg st).
Proof.
  intros E. destruct (connected (cfg st)) eqn:Hc.
  - destruct (enter_connected st Hc) as (st1 & E1 & (C & _)).
    rewrite E1 in E. inversion E; subst. rewrite C.
    split; [symmetry; exact Hc|]. split; [apply same_setup_refl | reflexivity].
  - destruct (enter_disconnected_inv st r st' Hc E) as (stp & Ep & (C & _) & Hr).
    rewrite C. split; [exact Hr|].
    apply probe_candidates_inv in Ep.
    destruct Ep as [(pre & b & post & s1 & s2 & Hb & Hf & Hp & Hs)|Hf].
    + apply fails_effect in Hf. destruct Hf as (S1 & _ & D1 & _).
      apply probe_candidate_inv in Hp.
      destruct Hp as (_ & _ & _ & _ & (S2 & _ & D2 & _) & _).
      subst stp. cbn [cfg device_baud with_connected].
      split; [|congruence].
      pose proof (same_setup_trans _ _ _ S1 S2) as S3.
      unfold same_setup in *. cbn. exact S3.
    + apply fails_effect in Hf. destruct Hf as (S1 & _ & D1 & _). split; assumption.
Qed.

End Discovery.

End Steps.

(** * The claims *)

Section Primitives.

Variable W : Type.
Implicit Types st : Machine W.

Lemma read_loop_more_fuel fuel : forall size max_retries br rt buf st res,
  read_loop fuel size max_retries br rt buf st = Some res ->
  read_loop (S fuel) size max_retries br rt buf st = Some res.
Proof.
  induction fuel as [|fuel IH]; intros size max_retries br rt buf st res E.
  - cbn [read_loop] in E |- *.
    destruct ((br <? size) && (rt <? max_retries)); [discriminate | exact E].
  - remember (S fuel) as k. cbn [read_loop]. subst k.
    cbn [read_loop] in E.
    destruct ((br <? size) && (rt <? max_retries)); [|exact E].
    destruct res as [a st'']. apply bind_inv in E.
    destruct E as (byte & st1 & E1 & E). rewrite (bind_run _ _ _ _ _ _ E1).
    destruct (byte =? -1).
    + apply bind_inv in E. destruct E as ([] & st2 & E2 & E).
      rewrite (bind_run _ _ _ _ _ _ E2). apply IH. exact E.
    + apply IH. exact E.
Qed.

Lemma read_loop_enough_fuel fuel fuel' size max_retries br rt buf st res :
  (fuel <= fuel')%nat ->
  read_loop fuel size max_retries br rt buf st = Some res ->
  read_loop fuel' size max_retries br rt buf st = Some res.
Proof.
  induction 1 as [|k Hk IH]; intros E; [exact E|].
  apply read_loop_more_fuel. apply IH. exact E.
Qed.

(** C4.  [read] always returns.  The polls it makes are the read calls of
    [ev], each empty one followed by the 50 ms delay when a delay function
    is set.  The empty polls of the whole call number at most
    [max_retries], whatever bytes arrive in between; every poll is made
    while fewer than [size] bytes are stored and fewer than [max_retries]
    polls were empty; at the return one of the two bounds is met; the
    value returned is the number of bytes stored, between zero and
    [size]. *)
Theorem read_bounded_retries (size max_retries : Z) st :
  exists n buf st' ev,
    read size max_retries st = Some ((n, buf), st')
    /\ (forall fuel, (read_fuel size max_retries <= fuel)%nat ->
          read_loop fuel size max_retries 0 0 [] st = Some ((n, buf), st'))
    /\ cfg st' = cfg st
    /\ trace st' = trace st ++ ev
    /\ forallb is_poll ev = true
    /\ buf = received ev
    /\ n = Z.of_nat (length buf)
    /\ 0 <= n <= Z.max 0 size
    /\ 0 <= empty_polls ev <= Z.max 0 max_retries
    /\ (n = Z.max 0 size \/ empty_polls ev = Z.max 0 max_retries)
    /\ (forall ev1 r ev2, ev = ev1 ++ EvRead r :: ev2 ->
          Z.of_nat (length (received ev1)) < size
          /\ empty_polls ev1 < max_retries)
    /\ delays ev = match delay_function (cfg st) with
                   | Some _ => repeat RETRY_DELAY_MS (Z.to_nat (empty_polls ev))
                   | None => []
                   end.
Proof.
  destruct (read_run W size max_retries st)
    as (n & buf & st' & ev & E & C & T & R1 & R2 & R3 & R4 & R5 & R6 & R7 & R8).
  exists n, buf, st', ev.
  pose proof (empty_polls_nonneg ev) as Hp.
  cbn [app] in R2. rewrite Z.add_0_l in R3, R4, R6.
  split; [exact E|]. split.
  { intros fuel Hf. eapply read_loop_enough_fuel; [exact Hf | exact E]. }
  split; [exact C|]. split; [exact T|]. split; [exact R1|]. split; [exact R2|].
  split; [rewrite R2; exact R3|].
  split; [lia|]. split; [lia|]. split; [lia|]. split; [|exact R8].
  intros ev1 r ev2 Hs. apply (R7 ev1 r ev2 Hs).
Qed.


(** ** Comparing a response *)

Lemma code_inj c1 c2 : code c1 = code c2 -> c1 = c2.
Proof.
  unfold code. intros H. apply N2Z.inj in H.
  rewrite <- (ascii_N_embedding c1), <- (ascii_N_embedding c2), H. reflexivity.
Qed.

Lemma size_t_of_length (s : list ascii) :
  size_t_of_int (Z.of_nat (length s)) = Z.of_nat (length s).
Proof.
  unfold size_t_of_int. destruct (Z.ltb_spec (Z.of_nat (length s)) 0); [lia | reflexivity].
Qed.

Lemma strncmp_same s : forall n, strncmp s s n = 0.
Proof.
  induction s as [|c s IH]; intros n; cbn [strncmp];
    destruct (n <=? 0); try reflexivity.
  rewrite Ascii.eqb_refl. destruct (is_nul c); [reflexivity | apply IH].
Qed.

Lemma strncmp_zero_nul_free s1 : forall s2,
  length s1 = length s2 ->
  nul_free s2 ->
  strncmp s1 s2 (Z.of_nat (length s2)) = 0 ->
  s1 = s2.
Proof.
  induction s1 as [|c1 s1 IH]; intros [|c2 s2] Hl Hn E; try discriminate.
  - reflexivity.
  - cbn [strncmp] in E.
    destruct (Z.leb_spec (Z.of_nat (length (c2 :: s2))) 0) as [H|H];
      [cbn [length] in H; lia|].
    destruct (Ascii.eqb_spec c1 c2) as [He|He].
    + subst c2. rewrite (Hn c1 (or_introl eq_refl)) in E.
      f_equal. apply IH.
      * cbn [length] in Hl. congruence.
      * intros d Hd. apply Hn. right. exact Hd.
      * replace (Z.of_nat (length s2)) with (Z.of_nat (length (c1 :: s2)) - 1)
          by (cbn [length]; lia).
        exact E.
    + exfalso. apply He. apply code_inj. lia.
Qed.

(** C2.  When the expected sequence holds no NUL byte (its length is
    then its [strlen], as in every call the driver makes and for every
    response of a profile),
    [check_response] on two sequences and their lengths returns true
    exactly when the sequences are equal, which includes equal lengths.
    Whatever the contents, two different lengths give false.  The call
    always returns a boolean, and does nothing but log. *)
Theorem check_response_exact (response expected : list ascii) st :
  nul_free expected ->
  (exists b st',
      check_response response (Z.of_nat (length response))
                     expected (Z.of_nat (length expected)) st = Some (b, st')
      /\ logged st st'
      /\ (b = true <-> response = expected))
  /\ (forall (r e : list ascii) (rl el : Z),
        rl <> el ->
        exists st', check_response r rl e el st = Some (false, st')
                    /\ logged st st').
Proof.
  intros Hn. split.
  - destruct (check_response_run W response (Z.of_nat (length response))
                expected (Z.of_nat (length expected)) st) as (st' & E & L).
    eexists. exists st'. split; [exact E|]. split; [exact L|].
    unfold matches. rewrite size_t_of_length. split.
    + intros H. apply andb_true_iff in H. destruct H as [H1 H2].
      apply Z.eqb_eq in H1. apply Z.eqb_eq in H2.
      apply strncmp_zero_nul_free; [lia | exact Hn | exact H2].
    + intros H. subst. rewrite Z.eqb_refl, strncmp_same. reflexivity.
  - intros r e rl el Hd.
    destruct (check_response_run W r rl e el st) as (st' & E & L).
    exists st'. split; [|exact L]. rewrite E. unfold matches.
    destruct (Z.eqb_spec rl el); [contradiction | reflexivity].
Qed.

End Primitives.

(** The short response of the exit scenario against the expected one. *)
Lemma check_response_exact_witness :
  nul_free ["E"; "N"; "D"; "013"; "010"]%char
  /\ exists b st',
       check_response ["E"; "N"; "013"; "010"]%char 4
                      ["E"; "N"; "D"; "013"; "010"]%char 5
                      (start (session rn42 true) []) = Some (b, st')
       /\ (b = true <-> ["E"; "N"; "013"; "010"]%char = ["E"; "N"; "D"; "013"; "010"]%char).
Proof.
  assert (Hn : nul_free ["E"; "N"; "D"; "013"; "010"]%char).
  { intros c Hc. simpl in Hc.
    repeat (destruct Hc as [Hc|Hc]; [subst c; reflexivity|]). contradiction. }
  split; [exact Hn|].
  destruct (check_response_exact script ["E"; "N"; "013"; "010"]%char
              ["E"; "N"; "D"; "013"; "010"]%char (start (session rn42 true) []) Hn)
    as [(b & st' & E & _ & I) _].
  exists b, st'. split; [exact E | exact I].
Defined.

(** Outside the driver's own calls: handed a count that reaches past a
    NUL common to both sequences, [strncmp] stops there, so two three-byte
    sequences that differ after it compare equal.  [command_request]
    passes [strlen] of the expected response and never makes such a
    call. *)
Lemma check_response_stops_at_nul :
  ~ (forall (response expected : list ascii) (st : Machine script),
       (exists st',
           check_response response (Z.of_nat (length response))
                          expected (Z.of_nat (length expected)) st
           = Some (true, st'))
       <-> response = expected).
Proof.
  intros H.
  destruct (H ["A"; "000"; "B"]%char ["A"; "000"; "C"]%char
              (start (session rn42 true) [])) as [H1 _].
  assert (E : ["A"; "000"; "B"]%char = ["A"; "000"; "C"]%char).
  { apply H1. eexists. reflexivity. }
  discriminate E.
Qed.

(** ** Baud rate values *)

(** C9.  The XBee mapper sends 1200, 2300, 4800, 9600, 19200, 38400, 57600
    and 115200 to 0 .. 7 in that order, whatever the stack held; on any
    other input it returns the uninitialised local, which can be any
    value.  The passthrough mapper is the identity, and it is the mapper
    used for a profile that has none. *)
Theorem baud_rate_mappers :
  (forall value0, map (xbee_baud_rate_mapper value0) xbee_bauds
                  = [0; 1; 2; 3; 4; 5; 6; 7])
  /\ (forall value0, xbee_baud_rate_mapper value0 9600 = 3
                     /\ xbee_baud_rate_mapper value0 115200 = 7)
  /\ (forall value0 baud, ~ In baud xbee_bauds ->
                          xbee_baud_rate_mapper value0 baud = value0)
  /\ (forall baud, passthrough_baud_rate_mapper baud = baud)
  /\ (forall p baud, baud_rate_mapper p = None -> effective_mapper p baud = baud)
  /\ (forall p f baud, baud_rate_mapper p = Some f -> effective_mapper p baud = f baud).
Proof.
  split; [intros; reflexivity|]. split; [intros; split; reflexivity|].
  split.
  { intros value0 b Hb. unfold xbee_baud_rate_mapper.
    repeat match goal with
           | |- context [?x =? ?y] =>
               destruct (Z.eqb_spec x y);
               [exfalso; apply Hb; subst; simpl; tauto|]
           end.
    reflexivity. }
  split; [intros; reflexivity|].
  split; intros p; intros; unfold effective_mapper; rewrite H; reflexivity.
Qed.

(** Inputs without a [case]: 300, and 2400, which the [switch] spells
    2300. *)
Example xbee_mapper_unlisted (value0 : Z) :
  xbee_baud_rate_mapper value0 300 = value0
  /\ xbee_baud_rate_mapper value0 2400 = value0.
Proof. split; reflexivity. Qed.

(** ** The request of [at_commander_set_baud] *)

Lemma decimal_nonempty z : (1 <= length (decimal z))%nat.
Proof.
  unfold decimal. destruct (Z.to_int z) as [d|d]; simpl.
  - destruct d; simpl; lia.
  - lia.
Qed.

(** C10 fails on the code.  For the RN-42 and the XBee profile and every
    baud rate, the formatted set-baud request with its NUL needs at least
    seven bytes, and [command] has five. *)
Theorem set_baud_command_overflows (delay value0 baud : Z) :
  (exists command,
      set_baud_command (AT_PLATFORM_RN42 delay) baud = Some command
      /\ 7 <= Z.of_nat (length command) + 1
      /\ command_fits command = false)
  /\ (exists command,
        set_baud_command (AT_PLATFORM_XBEE value0) baud = Some command
        /\ 9 <= Z.of_nat (length command) + 1
        /\ command_fits command = false)
  /\ set_baud_command (AT_PLATFORM_RN42 delay) 9600
     = lit_crlf "SU,9600".
Proof.
  split; [|split; [|reflexivity]].
  - eexists. split; [reflexivity|].
    assert (H : 7 <= Z.of_nat (length (format (list_ascii_of_string "SU,%d" ++ CRLF)
                  (effective_mapper (AT_PLATFORM_RN42 delay) baud))) + 1).
    { cbn [format list_ascii_of_string app CRLF Ascii.eqb Bool.eqb andb].
      pose proof (decimal_nonempty (effective_mapper (AT_PLATFORM_RN42 delay) baud)).
      cbn [length]. rewrite length_app. cbn [length]. lia. }
    split; [exact H|]. unfold command_fits, COMMAND_BUFFER_SIZE.
    apply Z.leb_gt. lia.
  - eexists. split; [reflexivity|].
    assert (H : 9 <= Z.of_nat (length (format (list_ascii_of_string "ATBD %d" ++ CRLF)
                  (effective_mapper (AT_PLATFORM_XBEE value0) baud))) + 1).
    { cbn [format list_ascii_of_string app CRLF Ascii.eqb Bool.eqb andb].
      pose proof (decimal_nonempty (effective_mapper (AT_PLATFORM_XBEE value0) baud)).
      cbn [length]. rewrite length_app. cbn [length]. lia. }
    split; [exact H|]. unfold command_fits, COMMAND_BUFFER_SIZE.
    apply Z.leb_gt. lia.
Qed.

Section Operations.

Variable W : Type.
Variable VALID_BAUD_RATES : list Z.
Implicit Types st : Machine W.

Lemma concat_repeat_snoc {A} (x : list A) n :
  concat (repeat x n) ++ x = concat (repeat x (S n)).
Proof.
  induction n as [|n IH]; simpl.
  - rewrite app_nil_r. reflexivity.
  - rewrite <- app_assoc. simpl in IH. rewrite IH. reflexivity.
Qed.


(** C5.  After a call of [at_commander_enter_command_mode] that returned
    true, a second call returns true, leaves the configuration as it is,
    and makes no call but log calls: no write, read, delay or baud rate
    switch.  Without a log function the machine is left untouched. *)
Theorem enter_command_mode_idempotent st st1 :
  at_commander_enter_command_mode VALID_BAUD_RATES st = Some (true, st1) ->
  exists st2,
    at_commander_enter_command_mode VALID_BAUD_RATES st1 = Some (true, st2)
    /\ cfg st2 = cfg st1
    /\ traffic (trace st2) = traffic (trace st1)
    /\ (exists ev, trace st2 = trace st1 ++ ev /\ forallb is_log ev = true)
    /\ (log_function (cfg st1) = None -> st2 = st1).
Proof.
  intros E. apply enter_inv in E. destruct E as (Hc & _).
  destruct (enter_connected W VALID_BAUD_RATES st1 (eq_sym Hc)) as (st2 & E2 & L).
  exists st2. split; [exact E2|].
  pose proof (logged_traffic _ _ _ L) as Ht. destruct L as (C & T & N).
  repeat (split; [assumption|]). exact N.
Qed.


(** ** Leaving command mode, storing, rebooting *)

Lemma exit_command_mode_run st :
  (connected (cfg st) = false ->
     exists st', at_commander_exit_command_mode st = Some (true, st')
                 /\ logged st st')
  /\ (connected (cfg st) = true ->
      forall req expected,
        request_format (exit_command_mode_command (platform (cfg st))) = Some req ->
        expected_response (exit_command_mode_command (platform (cfg st))) = Some expected ->
        exists ok st1 st',
          command_request (Some req) (Some expected) st = Some (ok, st1)
          /\ at_commander_exit_command_mode st = Some (ok, st')
          /\ connected (cfg st') = negb ok
          /\ same_setup (cfg st) (cfg st')
          /\ traffic (trace st') = traffic (trace st1))
  /\ (connected (cfg st) = true ->
      request_format (exit_command_mode_command (platform (cfg st))) = None
      \/ expected_response (exit_command_mode_command (platform (cfg st))) = None ->
      at_commander_exit_command_mode st = None).
Proof.
  unfold at_commander_exit_command_mode.
  split; [|split]; intros Hc; unfold bind at 1, get_cfg at 1; rewrite Hc.
  - destruct (debug_run W "Not in command mode" [] st) as (st' & E & L).
    exists st'. rewrite (bind_run _ _ _ _ _ _ E). split; [reflexivity | exact L].
  - intros req expected Hq He. rewrite Hq, He.
    destruct (command_request_run W req expected st) as (ok & st1 & ev & E & C & T & R).
    rewrite (bind_run _ _ _ _ _ _ E). destruct ok.
    + destruct (debug_run W "Switched back to data mode" [] st1) as (st2 & E2 & L2).
      rewrite (bind_run _ _ _ _ _ _ E2). unfold bind, modify_cfg, ret.
      eexists true, st1, _. split; [exact E|]. split; [reflexivity|].
      cbn [cfg trace connected with_connected negb].
      pose proof (logged_traffic _ _ _ L2) as Ht. destruct L2 as (C2 & _).
      split; [reflexivity|]. split; [|exact Ht].
      rewrite C2, C. repeat split.
    + destruct (debug_run W "Unable to exit command mode" [] st1) as (st2 & E2 & L2).
      rewrite (bind_run _ _ _ _ _ _ E2). unfold ret.
      exists false, st1, st2. split; [exact E|]. split; [reflexivity|].
      pose proof (logged_traffic _ _ _ L2) as Ht. destruct L2 as (C2 & _).
      rewrite C2, C. split; [exact Hc|]. split; [apply same_setup_refl | exact Ht].
  - intros Hn. unfold bind. rewrite command_request_null; [reflexivity | exact Hn].
Qed.

(** The two ways through [at_commander_store_settings]. *)
Lemma store_settings_cases st :
  (request_format (store_settings_command (platform (cfg st))) = None
   \/ expected_response (store_settings_command (platform (cfg st))) = None ->
   at_commander_store_settings st = Some (false, st))
  /\ (forall req expected,
        request_format (store_settings_command (platform (cfg st))) = Some req ->
        expected_response (store_settings_command (platform (cfg st))) = Some expected ->
        exists ok st1 st',
          command_request (Some req) (Some expected) st = Some (ok, st1)
          /\ at_commander_store_settings st = Some (ok, st')
          /\ logged st1 st'
          /\ traffic (trace st') = traffic (trace st1)).
Proof.
  unfold at_commander_store_settings. split.
  - unfold bind at 1, get_cfg at 1. intros [H|H]; rewrite H.
    + reflexivity.
    + destruct (request_format _); reflexivity.
  - intros req expected Hq He. unfold bind at 1, get_cfg at 1. rewrite Hq, He.
    destruct (command_request_run W req expected st) as (ok & st1 & ev & E & C & T & R).
    rewrite (bind_run _ _ _ _ _ _ E). exists ok, st1. destruct ok.
    + destruct (debug_run W "Stored settings into flash memory" [] st1) as (st2 & E2 & L2).
      rewrite (bind_run _ _ _ _ _ _ E2). exists st2.
      split; [exact E|]. split; [reflexivity|]. split; [exact L2|].
      apply logged_traffic. exact L2.
    + destruct (debug_run W "Unable to store settings in flash memory" [] st1)
        as (st2 & E2 & L2).
      rewrite (bind_run _ _ _ _ _ _ E2). exists st2.
      split; [exact E|]. split; [reflexivity|]. split; [exact L2|].
      apply logged_traffic. exact L2.
Qed.

Lemma store_settings_run st :
  exists ok st', at_commander_store_settings st = Some (ok, st')
                 /\ cfg st' = cfg st.
Proof.
  destruct (store_settings_cases st) as [Hn Hs].
  destruct (request_format (store_settings_command (platform (cfg st)))) as [req|] eqn:Hq.
  2:{ exists false, st. split; [apply Hn; left; reflexivity | reflexivity]. }
  destruct (expected_response (store_settings_command (platform (cfg st))))
    as [expected|] eqn:He.
  2:{ exists false, st. split; [apply Hn; right; reflexivity | reflexivity]. }
  destruct (Hs req expected eq_refl eq_refl) as (ok & st1 & st' & E1 & E & (C & _) & _).
  exists ok, st'. split; [exact E|].
  apply command_request_inv in E1. destruct E1 as (_ & _ & _ & _ & _ & C1 & _).
  congruence.
Qed.


(** The flow of [at_commander_set_baud] for a request that fits
    [command].  Once mode entry has returned true and the round trip has
    returned [ok]: if [ok] is false, the function returns false and
    [device_baud] is what it was before the call; if [ok] is true,
    [device_baud] is set to the requested value,
    [at_commander_store_settings] is run from there, and the function
    returns true whatever that call returned. *)
Lemma set_baud_when_request_fits (new_baud : Z) st st1 command ok st2 :
  at_commander_enter_command_mode VALID_BAUD_RATES st = Some (true, st1) ->
  set_baud_command (platform (cfg st1)) new_baud = Some command ->
  template_modelled (platform (cfg st1)) = true ->
  command_fits command = true ->
  command_request (Some command)
    (expected_response (set_baud_rate_command (platform (cfg st1)))) st1
    = Some (ok, st2) ->
  (ok = false ->
     exists st',
       at_commander_set_baud VALID_BAUD_RATES new_baud st = Some (false, st')
       /\ device_baud (cfg st') = device_baud (cfg st)
       /\ logged st2 st')
  /\ (ok = true ->
      exists st3 stored st',
        logged st2 st3
        /\ at_commander_store_settings
             (mkMachine (with_device_baud new_baud (cfg st3)) (world st3) (trace st3))
           = Some (stored, st')
        /\ at_commander_set_baud VALID_BAUD_RATES new_baud st = Some (true, st')
        /\ device_baud (cfg st') = new_baud).
Proof.
  intros Ee Ec Ht Hf Er.
  pose proof (enter_inv _ _ _ _ _ Ee) as (_ & _ & Hd).
  pose proof (command_request_inv _ _ _ _ _ _ Er) as (_ & _ & _ & _ & _ & C2 & _).
  assert (Hs : at_commander_set_baud VALID_BAUD_RATES new_baud st
               = (if ok
                  then debug "Changed device baud rate to %d" [ArgInt new_baud];;;
                       modify_cfg (with_device_baud new_baud);;;
                       at_commander_store_settings;;; ret true
                  else debug "Unable to change device baud rate" [];;; ret false) st2).
  { unfold at_commander_set_baud. rewrite (bind_run _ _ _ _ _ _ Ee).
    unfold bind at 1, get_cfg at 1. rewrite Ec. cbn [lift]. unfold bind at 1, ret at 1.
    rewrite Ht, Hf. cbn [andb].
    rewrite (bind_run _ _ _ _ _ _ Er). reflexivity. }
  rewrite Hs. clear Hs.
  split; intros Hok; subst ok.
  - destruct (debug_run W "Unable to change device baud rate" [] st2) as (st' & E & L).
    rewrite (bind_run _ _ _ _ _ _ E). exists st'. split; [reflexivity|].
    split; [|exact L]. destruct L as (C & _). congruence.
  - destruct (debug_run W "Changed device baud rate to %d" [ArgInt new_baud] st2)
      as (st3 & E & L).
    rewrite (bind_run _ _ _ _ _ _ E).
    destruct (store_settings_run
                (mkMachine (with_device_baud new_baud (cfg st3)) (world st3) (trace st3)))
      as (stored & st' & Es & Cs).
    exists st3, stored, st'. split; [exact L|]. split; [exact Es|]. split.
    + unfold bind at 1, modify_cfg at 1. rewrite (bind_run _ _ _ _ _ _ Es). reflexivity.
    + rewrite Cs. reflexivity.
Qed.

(** Without command mode no request is sent and [device_baud] is kept. *)
Lemma set_baud_without_entry (new_baud : Z) st st1 :
  at_commander_enter_command_mode VALID_BAUD_RATES st = Some (false, st1) ->
  exists st',
    at_commander_set_baud VALID_BAUD_RATES new_baud st = Some (false, st')
    /\ device_baud (cfg st') = device_baud (cfg st)
    /\ logged st1 st'.
Proof.
  intros Ee. pose proof (enter_inv _ _ _ _ _ Ee) as (_ & _ & Hd).
  unfold at_commander_set_baud. rewrite (bind_run _ _ _ _ _ _ Ee).
  destruct (debug_run W "Unable to enter command mode, can't set baud rate" [] st1)
    as (st' & E & L).
  rewrite (bind_run _ _ _ _ _ _ E). exists st'. split; [reflexivity|].
  split; [|exact L]. destruct L as (C & _). congruence.
Qed.

(** What [at_commander_reboot] does after mode entry: nothing but a log
    line when entry failed; the five bytes of a five-character reboot
    request, unverified, when it succeeded. *)
Lemma reboot_after_entry st ok st1 :
  at_commander_enter_command_mode VALID_BAUD_RATES st = Some (ok, st1) ->
  (ok = false ->
     exists st', at_commander_reboot VALID_BAUD_RATES st = Some (false, st')
                 /\ logged st1 st')
  /\ (ok = true ->
      forall s,
        request_format (reboot_command (platform (cfg st1))) = Some s ->
        length s = 5%nat ->
        exists st2 st',
          at_commander_reboot VALID_BAUD_RATES st = Some (true, st')
          /\ cfg st2 = cfg st1
          /\ trace st2 = trace st1 ++ match write_function (cfg st1) with
                                      | Some _ => map EvWrite s
                                      | None => []
                                      end
          /\ logged st2 st').
Proof.
  intros Ee. unfold at_commander_reboot. rewrite (bind_run _ _ _ _ _ _ Ee).
  split; intros Hok; subst ok.
  - destruct (debug_run W "Unable to enter command mode, can't reboot" [] st1)
      as (st' & E & L).
    rewrite (bind_run _ _ _ _ _ _ E). exists st'. split; [reflexivity | exact L].
  - intros s Hs Hl. unfold bind at 1, get_cfg at 1. rewrite Hs.
    assert (Hw : exists st2,
               write (Some s) 5 st1 = Some (tt, st2)
               /\ cfg st2 = cfg st1
               /\ trace st2 = trace st1 ++ match write_function (cfg st1) with
                                           | Some _ => map EvWrite s
                                           | None => []
                                           end).
    { unfold write, bind, get_cfg. destruct (write_function (cfg st1)) as [f|].
      - destruct (write_loop_run W f s 5 0%nat st1) as (st2 & E & C & T); [lia|].
        exists st2. split; [exact E|]. split; [exact C|].
        rewrite T. cbn [skipn]. rewrite <- Hl, firstn_all. reflexivity.
      - exists st1. rewrite app_nil_r. repeat split. }
    destruct Hw as (st2 & Ew & Cw & Tw).
    rewrite (bind_run _ _ _ _ _ _ Ew).
    destruct (debug_run W "Rebooting RN-42" [] st2) as (st' & E & L).
    rewrite (bind_run _ _ _ _ _ _ E). exists st2, st'.
    split; [reflexivity|]. split; [exact Cw|]. split; [exact Tw | exact L].
Qed.

End Operations.

(** ** The claims on concrete sessions *)


(** The scenario of the specification: 1200 fails after three empty
    polls, 9600 succeeds, and the session ends connected at 9600. *)
Example scenario_discovery :
  exists st',
    at_commander_enter_command_mode sample_bauds scenario = Some (true, st')
    /\ connected (cfg st') = true
    /\ baud (cfg st') = 9600
    /\ bauds (trace st') = [1200; 9600]
    /\ written (trace st') = ["$"; "$"; "$"; "$"; "$"; "$"]%char
    /\ empty_polls (trace st') = 3.
Proof. eexists. vm_compute. repeat split. Qed.


(** A second call after the discovery pass of that scenario. *)
Lemma enter_command_mode_idempotent_witness :
  at_commander_enter_command_mode sample_bauds scenario = Some (true, entered)
  /\ exists st2,
       at_commander_enter_command_mode sample_bauds entered = Some (true, st2)
       /\ cfg st2 = cfg entered
       /\ traffic (trace st2) = traffic (trace entered).
Proof.
  assert (E : at_commander_enter_command_mode sample_bauds scenario
              = Some (true, entered)) by (vm_compute; reflexivity).
  split; [exact E|].
  destruct (enter_command_mode_idempotent script sample_bauds scenario entered E)
    as (st2 & E2 & C & T & _).
  exists st2. split; [exact E2|]. split; [exact C | exact T].
Defined.

(** ** Sessions the driver mishandles *)

(** C6 fails on the code.  The XBee profile has no exit descriptor; once
    connected, [at_commander_exit_command_mode] hands its NULL strings to
    [command_request], whose [strlen] has no result, so no boolean is
    returned. *)
Theorem exit_command_mode_xbee_no_result (value0 : Z) (w : script) (t : list Event) :
  exit_command_mode_command (AT_PLATFORM_XBEE value0) = mkAtCommand None None
  /\ at_commander_exit_command_mode
       (mkMachine (session (AT_PLATFORM_XBEE value0) true) w t) = None.
Proof. split; reflexivity. Qed.

(** The exit scenario of the specification on the RN-42 profile: the
    device sends four bytes where five are expected, the call returns
    false and the session stays connected. *)
Example exit_short_response :
  exists st',
    at_commander_exit_command_mode
      (start (session rn42 true) (codes (lit_crlf "EN"))) = Some (false, st')
    /\ connected (cfg st') = true
    /\ received (trace st') = ["E"; "N"; "013"; "010"]%char.
Proof. eexists. vm_compute. repeat split. Qed.

(** The same exchange with a log function: the first diagnostic gives the
    expected and the received length. *)
Example exit_short_response_logged :
  exists st' rest,
    at_commander_exit_command_mode
      (start (session_logging rn42 true) (codes (lit_crlf "EN"))) = Some (false, st')
    /\ filter is_log (trace st')
       = EvLog "Expected %d bytes in response but received %d" [ArgInt 5; ArgInt 4]
         :: rest
    /\ written (trace st') = ["-"; "-"; "-"]%char
    /\ received (trace st') = ["E"; "N"; "013"; "010"]%char.
Proof. eexists. eexists. vm_compute. repeat split. Qed.

(** C8 fails on the code.  [at_commander_reboot] writes five bytes from
    the reboot request whatever its length.  On the XBee profile, whose
    reboot request is NULL, the first byte read has no result.  On a
    profile whose reboot request has six characters the last one is not
    written.  On the RN-42 profile, whose request has five, the literal
    goes out whole. *)
Theorem reboot_writes_five_bytes :
  (forall (value0 : Z) (candidates : list Z) (w : script) (t : list Event),
      at_commander_reboot candidates
        (mkMachine (session (AT_PLATFORM_XBEE value0) true) w t) = None)
  /\ (exists st',
        at_commander_reboot sample_bauds (start (session long_reboot true) [])
          = Some (true, st')
        /\ request_format (reboot_command long_reboot)
           = Some ["A"; "T"; "F"; "R"; "013"; "010"]%char
        /\ written (trace st') = ["A"; "T"; "F"; "R"; "013"]%char)
  /\ (exists st',
        at_commander_reboot sample_bauds (start (session rn42 true) [])
          = Some (true, st')
        /\ Some (written (trace st')) = request_format (reboot_command rn42)
        /\ traffic (trace st') = map EvWrite (written (trace st'))).
Proof.
  split; [intros; reflexivity|].
  split; eexists; vm_compute; repeat split.
Qed.

(** Whatever the profile, a request that does not fit [command] leaves
    [at_commander_set_baud] without a result once command mode is
    entered. *)
Lemma set_baud_no_result {W : Type} (candidates : list Z) (new_baud : Z)
    (st st1 : Machine W) command :
  at_commander_enter_command_mode candidates st = Some (true, st1) ->
  set_baud_command (platform (cfg st1)) new_baud = Some command ->
  command_fits command = false ->
  at_commander_set_baud candidates new_baud st = None.
Proof.
  intros Ee Ec Hf. unfold at_commander_set_baud.
  rewrite (bind_run _ _ _ _ _ _ Ee). unfold bind at 1, get_cfg at 1.
  rewrite Ec. cbn [lift]. unfold bind at 1, ret at 1.
  rewrite Hf, andb_false_r. reflexivity.
Qed.

(** The set-baud requests of the two profiles never fit. *)
Lemma profile_commands_overflow (delay value0 baud : Z) :
  (exists command,
      set_baud_command (AT_PLATFORM_RN42 delay) baud = Some command
      /\ command_fits command = false)
  /\ (exists command,
        set_baud_command (AT_PLATFORM_XBEE value0) baud = Some command
        /\ command_fits command = false).
Proof.
  split; eexists; (split; [reflexivity|]);
    unfold command_fits, COMMAND_BUFFER_SIZE; apply Z.leb_gt;
    cbn [format list_ascii_of_string app CRLF Ascii.eqb Bool.eqb andb length];
    rewrite length_app; cbn [length];
    match goal with
    | |- context [decimal ?z] => pose proof (decimal_nonempty z)
    end; lia.
Qed.

(** C3 fails on the code.  On the RN-42 and on the XBee profile, for
    every baud rate, a call of [at_commander_set_baud] on a session in
    command mode formats a request that overruns [char command[5]] before
    any round trip takes place, so the call has no defined result: it
    neither returns false with [device_baud] kept nor returns true with
    [device_baud] set.  The same holds when the call itself enters
    command mode. *)
Theorem set_baud_overruns_command (delay value0 new_baud : Z)
    (candidates : list Z) (w : script) (t : list Event) :
  at_commander_set_baud candidates new_baud
    (mkMachine (session (AT_PLATFORM_RN42 delay) true) w t) = None
  /\ at_commander_set_baud candidates new_baud
       (mkMachine (session (AT_PLATFORM_XBEE value0) true) w t) = None
  /\ at_commander_set_baud sample_bauds 9600
       (start (session rn42 false) (codes (lit_crlf "CMD") ++ codes (lit_crlf "AOK")))
     = None.
Proof.
  destruct (profile_commands_overflow delay value0 new_baud)
    as [(c1 & E1 & F1) (c2 & E2 & F2)].
  split; [|split].
  - eapply set_baud_no_result; [reflexivity | exact E1 | exact F1].
  - eapply set_baud_no_result; [reflexivity | exact E2 | exact F2].
  - vm_compute. reflexivity.
Qed.

(** A profile whose request fits: the device acknowledges, the call
    returns true and [device_baud] holds the new rate. *)
Example set_baud_short_request :
  set_baud_command short_request 9600 = lit "B3"
  /\ exists st',
       at_commander_set_baud sample_bauds 9600
         (start (session short_request true) (codes (lit "OK"))) = Some (true, st')
       /\ device_baud (cfg st') = 9600
       /\ written (trace st') = ["B"; "3"]%char.
Proof. split; [reflexivity|]. eexists. vm_compute. repeat split. Qed.

(** A failed round trip on that profile, on a session that was not yet
    connected: command mode is entered by the call, the device does not
    acknowledge, and [device_baud] keeps its value. *)
Example set_baud_failure_keeps_device_baud :
  exists st',
    at_commander_set_baud sample_bauds 9600
      (start (session short_request false) (codes (lit "OK"))) = Some (false, st')
    /\ connected (cfg st') = true
    /\ device_baud (cfg st') = 0.
Proof. eexists. vm_compute. repeat split. Qed.

(** Retries are counted over the whole read: three empty polls with bytes
    in between end a read of five bytes after two. *)
Example read_retries_accumulate :
  exists st',
    read 5 3 (start (session rn42 true) [-1; 65; -1; 66; -1; 67])
    = Some ((2, ["A"; "B"]%char), st')
    /\ world st' = [67]
    /\ empty_polls (trace st') = 3.
Proof. eexists. vm_compute. repeat split. Qed.

Example read_nothing :
  exists st',
    read 5 3 (start (session rn42 true) []) = Some ((0, []), st')
    /\ delays (trace st') = [50; 50; 50].
Proof. eexists. vm_compute. repeat split. Qed.


(** * Further properties of the driver *)

(** ** Counting polls *)

Lemma read_calls_app t u : read_calls (t ++ u) = read_calls t + read_calls u.
Proof.
  induction t as [|e t IH]; [reflexivity|].
  destruct e; cbn [app read_calls]; rewrite ?IH; lia.
Qed.

Lemma read_calls_split t :
  read_calls t = Z.of_nat (length (received t)) + empty_polls t.
Proof.
  induction t as [|e t IH]; [reflexivity|].
  destruct e; cbn [read_calls received empty_polls]; try exact IH.
  destruct (result =? -1); cbn [length]; lia.
Qed.

Section NoRead.

Variable l : list Event.
Hypothesis no_read :
  forallb (fun e => match e with EvRead _ => false | _ => true end) l = true.

Lemma no_read_received : received l = [].
Proof.
  revert no_read. induction l as [|e t IH]; [reflexivity|].
  destruct e; cbn [forallb received andb]; try discriminate; exact IH.
Qed.

Lemma no_read_empty_polls : empty_polls l = 0.
Proof.
  revert no_read. induction l as [|e t IH]; [reflexivity|].
  destruct e; cbn [forallb empty_polls andb]; try discriminate; exact IH.
Qed.

End NoRead.

Lemma log_no_read ev :
  forallb is_log ev = true ->
  forallb (fun e => match e with EvRead _ => false | _ => true end) ev = true.
Proof.
  induction ev as [|e t IH]; [reflexivity|].
  destruct e; cbn [forallb is_log andb]; try discriminate; exact IH.
Qed.

Lemma writes_no_read s :
  forallb (fun e => match e with EvRead _ => false | _ => true end)
          (map EvWrite s) = true.
Proof. induction s as [|c s IH]; [reflexivity | exact IH]. Qed.

Lemma traffic_no_read t :
  forallb (fun e => match e with EvRead _ => false | _ => true end) t = true ->
  forallb (fun e => match e with EvRead _ => false | _ => true end) (traffic t) = true.
Proof.
  induction t as [|e t IH]; [reflexivity|].
  destruct e; cbn [forallb traffic filter is_log negb andb]; try discriminate; exact IH.
Qed.

Lemma poll_delays_only ev :
  forallb is_poll ev = true -> forallb is_log ev = true -> ev = [].
Proof.
  destruct ev as [|e t]; [reflexivity|].
  destruct e; cbn [forallb is_poll is_log andb]; intros; discriminate.
Qed.

(** ** The text of a C string *)

Lemma text_cons_nul c t : is_nul c = true -> text (c :: t) = [].
Proof. intros H. unfold text. cbn [chars_strlen]. rewrite H. reflexivity. Qed.

Lemma text_cons c t : is_nul c = false -> text (c :: t) = c :: text t.
Proof.
  intros H. unfold text.
  change (chars_strlen (c :: t)) with (if is_nul c then 0 else 1 + chars_strlen t).
  rewrite H. pose proof (chars_strlen_bounds t) as B.
  replace (Z.to_nat (1 + chars_strlen t)) with (S (Z.to_nat (chars_strlen t))) by lia.
  reflexivity.
Qed.

Lemma text_length s : Z.of_nat (length (text s)) = chars_strlen s.
Proof.
  pose proof (chars_strlen_bounds s) as B. unfold text.
  rewrite length_firstn. lia.
Qed.

Lemma strncmp_text s : strncmp (text s) s (chars_strlen s) = 0.
Proof.
  induction s as [|c t IH]; [reflexivity|].
  destruct (is_nul c) eqn:Hc.
  - rewrite (text_cons_nul _ _ Hc).
    change (chars_strlen (c :: t)) with (if is_nul c then 0 else 1 + chars_strlen t).
    rewrite Hc. reflexivity.
  - rewrite (text_cons _ _ Hc).
    change (chars_strlen (c :: t)) with (if is_nul c then 0 else 1 + chars_strlen t).
    rewrite Hc. pose proof (chars_strlen_bounds t) as B.
    cbn [strncmp]. destruct (Z.leb_spec (1 + chars_strlen t) 0); [lia|].
    rewrite Ascii.eqb_refl, Hc.
    replace (1 + chars_strlen t - 1) with (chars_strlen t) by lia. exact IH.
Qed.

Lemma strncmp_zero_text s1 : forall s2,
  Z.of_nat (length s1) = chars_strlen s2 ->
  strncmp s1 s2 (chars_strlen s2) = 0 ->
  s1 = text s2.
Proof.
  induction s1 as [|c1 s1 IH]; intros s2 Hl E.
  - unfold text. rewrite <- Hl. reflexivity.
  - destruct s2 as [|c2 s2]; [cbn [length chars_strlen] in Hl; lia|].
    destruct (is_nul c2) eqn:Hc.
    { change (chars_strlen (c2 :: s2)) with (if is_nul c2 then 0 else 1 + chars_strlen s2) in Hl.
      rewrite Hc in Hl. cbn [length] in Hl. lia. }
    rewrite (text_cons _ _ Hc).
    change (chars_strlen (c2 :: s2)) with (if is_nul c2 then 0 else 1 + chars_strlen s2) in *.
    rewrite Hc in *. pose proof (chars_strlen_bounds s2) as B.
    cbn [strncmp] in E. destruct (Z.leb_spec (1 + chars_strlen s2) 0); [lia|].
    destruct (Ascii.eqb_spec c1 c2) as [He|He].
    + subst c2. rewrite Hc in E. f_equal. apply IH.
      * cbn [length] in Hl. lia.
      * replace (1 + chars_strlen s2 - 1) with (chars_strlen s2) in E by lia. exact E.
    + exfalso. apply He. apply code_inj. lia.
Qed.

Lemma matches_text buf n expected :
  n = Z.of_nat (length buf) ->
  matches buf n expected (chars_strlen expected) = true <-> buf = text expected.
Proof.
  intros Hn. pose proof (chars_strlen_bounds expected) as B. unfold matches.
  assert (Hs : size_t_of_int (chars_strlen expected) = chars_strlen expected).
  { unfold size_t_of_int. destruct (Z.ltb_spec (chars_strlen expected) 0); [lia | reflexivity]. }
  rewrite Hs. split.
  - intros H. apply andb_true_iff in H. destruct H as [H1 H2].
    apply Z.eqb_eq in H1. apply Z.eqb_eq in H2.
    apply strncmp_zero_text; [lia | exact H2].
  - intros H. subst buf. rewrite Hn, text_length, Z.eqb_refl, strncmp_text. reflexivity.
Qed.

Section Requests.

Variable W : Type.
Implicit Types st : Machine W.

Lemma writes_of_no_read (c : AtCommanderConfig W) s :
  forallb (fun e => match e with EvRead _ => false | _ => true end)
          (writes_of c s) = true.
Proof.
  unfold writes_of. destruct (write_function c); [apply writes_no_read | reflexivity].
Qed.

Lemma delay_of_no_read (c : AtCommanderConfig W) ms :
  forallb (fun e => match e with EvRead _ => false | _ => true end)
          (delay_of c ms) = true.
Proof. unfold delay_of. destruct (delay_function c); reflexivity. Qed.

Lemma log_delays ev : forallb is_log ev = true -> delays ev = [].
Proof.
  induction ev as [|e t IH]; [reflexivity|].
  destruct e; cbn [forallb is_log andb delays]; try discriminate; exact IH.
Qed.

Lemma writes_of_delays (c : AtCommanderConfig W) s : delays (writes_of c s) = [].
Proof.
  unfold writes_of. destruct (write_function c); [|reflexivity].
  induction (text s) as [|x l IH]; [reflexivity | exact IH].
Qed.

(** What one round trip receives and how long it waits. *)
Lemma round_trip_facts (c : AtCommanderConfig W) cmd expected ev ok :
  round_trip c cmd expected ev ok ->
  Z.of_nat (length (received ev)) <= chars_strlen expected
  /\ 0 <= empty_polls ev <= MAX_RETRIES
  /\ (ok = true <-> received ev = text expected)
  /\ delays ev = match delay_function c with
                 | Some _ => response_delay_ms (platform c)
                             :: repeat RETRY_DELAY_MS (Z.to_nat (empty_polls ev))
                 | None => []
                 end.
Proof.
  intros (pv & lv & n & buf & E & R & L & Hok).
  destruct R as (R1 & R2 & R3 & R4 & R5 & R6 & R7 & R8).
  pose proof (chars_strlen_bounds expected) as B.
  pose proof (empty_polls_nonneg pv) as Hp.
  assert (Hr : received ev = received pv).
  { subst ev. rewrite !received_app.
    rewrite (no_read_received _ (writes_of_no_read c cmd)).
    rewrite (no_read_received _ (delay_of_no_read c _)).
    rewrite (no_read_received _ (log_no_read _ L)).
    rewrite app_nil_r. reflexivity. }
  assert (He : empty_polls ev = empty_polls pv).
  { subst ev. rewrite !empty_polls_app.
    rewrite (no_read_empty_polls _ (writes_of_no_read c cmd)).
    rewrite (no_read_empty_polls _ (delay_of_no_read c _)).
    rewrite (no_read_empty_polls _ (log_no_read _ L)). lia. }
  cbn [app] in R2. rewrite Hr, He. subst buf.
  unfold MAX_RETRIES in *.
  split; [lia|]. split; [lia|]. split.
  - rewrite Hok. apply matches_text. lia.
  - subst ev. rewrite !delays_app, writes_of_delays, (log_delays _ L), R8, app_nil_r.
    unfold delay_of. destruct (delay_function c); reflexivity.
Qed.

(** X2.  On a session with a read function, the one pointer the code
    calls untested, [command_request] on two strings whose expected
    response has at most [MAX_RESPONSE_LENGTH] characters returns, and
    stores no more bytes than the response array holds.  It leaves the
    configuration as it is, and its calls come in this order: the bytes
    of the request, up to its terminator, when a write function is set;
    the settle delay of the profile, when a delay function is set; the
    polls of [read] with their retry delays; log lines.  No byte is read
    before the request is written in full, and the UART is never
    switched. *)
Theorem command_request_protocol (cmd expected : list ascii) st :
  chars_strlen expected <= MAX_RESPONSE_LENGTH ->
  exists ok st' pv lv,
    command_request (Some cmd) (Some expected) st = Some (ok, st')
    /\ cfg st' = cfg st
    /\ trace st' = trace st
         ++ writes_of (cfg st) cmd
         ++ delay_of (cfg st) (response_delay_ms (platform (cfg st)))
         ++ pv ++ lv
    /\ forallb is_poll pv = true
    /\ forallb is_log lv = true
    /\ Z.of_nat (length (received pv)) <= MAX_RESPONSE_LENGTH
    /\ bauds (trace st') = bauds (trace st).
Proof.
  intros Hfit.
  destruct (command_request_run W cmd expected st) as (ok & st' & ev & E & C & T & R).
  pose proof (round_trip_bauds _ _ _ _ _ _ R) as Hb.
  destruct R as (pv & lv & n & buf & Hev & (R1 & _ & R3 & _ & R5 & _) & L & _).
  exists ok, st', pv, lv.
  split; [exact E|]. split; [exact C|]. split; [rewrite T, Hev; reflexivity|].
  split; [exact R1|]. split; [exact L|].
  split; [pose proof (chars_strlen_bounds expected); lia|].
  rewrite T, bauds_app, Hb, app_nil_r. reflexivity.
Qed.

(** X3.  A call of [command_request] that returns was given two strings,
    and it returns true exactly when the bytes it received, in order, are
    the expected response up to its terminator: a short, missing or altered
    response gives false. *)
Theorem command_request_verdict (cmd expected : cstring) st ok st' :
  command_request cmd expected st = Some (ok, st') ->
  exists c e ev,
    cmd = Some c /\ expected = Some e
    /\ trace st' = trace st ++ ev
    /\ (ok = true <-> received ev = text e).
Proof.
  intros E. apply command_request_inv in E.
  destruct E as (c & e & ev & Hc & He & _ & T & R).
  apply round_trip_facts in R. destruct R as (_ & _ & Hok & _).
  exists c, e, ev. repeat (split; [assumption|]). exact Hok.
Qed.


(** X5.  When the expected response is empty (its first character is the
    terminator), [command_request] writes the request, waits the settle
    delay, polls nothing and returns true. *)
Theorem command_request_empty_expected (cmd expected : list ascii) st :
  chars_strlen expected = 0 ->
  exists st',
    command_request (Some cmd) (Some expected) st = Some (true, st')
    /\ cfg st' = cfg st
    /\ trace st' = trace st
         ++ writes_of (cfg st) cmd
         ++ delay_of (cfg st) (response_delay_ms (platform (cfg st)))
    /\ read_calls (trace st') = read_calls (trace st).
Proof.
  intros H0. unfold command_request.
  destruct (write_text W cmd st) as (st1 & E1 & C1 & T1).
  rewrite (bind_run _ _ _ _ _ _ E1). unfold bind at 1, get_cfg at 1.
  destruct (delay_ms_run W (response_delay_ms (platform (cfg st1))) st1)
    as (st2 & E2 & C2 & T2).
  rewrite (bind_run _ _ _ _ _ _ E2). rewrite H0.
  exists st2. split; [reflexivity|]. split; [congruence|].
  assert (T : trace st2 = trace st ++ writes_of (cfg st) cmd
                ++ delay_of (cfg st) (response_delay_ms (platform (cfg st)))).
  { rewrite T2, T1, C1, <- app_assoc. reflexivity. }
  split; [exact T|].
  rewrite T, !read_calls_app, !read_calls_split.
  rewrite (no_read_received _ (writes_of_no_read _ cmd)).
  rewrite (no_read_empty_polls _ (writes_of_no_read _ cmd)).
  rewrite (no_read_received _ (delay_of_no_read _ _)).
  rewrite (no_read_empty_polls _ (delay_of_no_read _ _)).
  cbn [length]. lia.
Qed.

End Requests.

(** ** Calls that are not polls *)

Lemma empty_polls_traffic t : empty_polls (traffic t) = empty_polls t.
Proof.
  induction t as [|e t IH]; [reflexivity|].
  destruct e; cbn [traffic filter is_log negb empty_polls]; fold (traffic t);
    rewrite ?IH; reflexivity.
Qed.

Lemma read_calls_traffic t : read_calls (traffic t) = read_calls t.
Proof.
  induction t as [|e t IH]; [reflexivity|].
  destruct e; cbn [traffic filter is_log negb read_calls]; fold (traffic t);
    rewrite ?IH; reflexivity.
Qed.

Section Writing.

Variable W : Type.
Implicit Types st : Machine W.

Lemma logged_empty_polls st st' :
  logged st st' -> empty_polls (trace st') = empty_polls (trace st).
Proof.
  intros L. rewrite <- (empty_polls_traffic (trace st')), (logged_traffic _ _ _ L).
  apply empty_polls_traffic.
Qed.

Lemma logged_read_calls st st' :
  logged st st' -> read_calls (trace st') = read_calls (trace st).
Proof.
  intros L. rewrite <- (read_calls_traffic (trace st')), (logged_traffic _ _ _ L).
  apply read_calls_traffic.
Qed.

Lemma char_at_cells s i :
  (i < length (cells s))%nat ->
  char_at (Some s) (Z.of_nat i) = nth_error (cells s) i.
Proof.
  unfold cells. rewrite length_app. cbn [length]. intros Hi. unfold char_at.
  destruct (Z.ltb_spec (Z.of_nat i) 0); [lia|].
  destruct (Z.ltb_spec (Z.of_nat i) (Z.of_nat (length s))).
  - rewrite Nat2Z.id, nth_error_app1; [reflexivity | lia].
  - destruct (Z.eqb_spec (Z.of_nat i) (Z.of_nat (length s))); [|lia].
    rewrite nth_error_app2; [|lia].
    replace (i - length s)%nat with 0%nat by lia. reflexivity.
Qed.

(** The loop of [write] over the cells of a string. *)
Lemma write_loop_cells f s n : forall i st,
  (i + n <= length (cells s))%nat ->
  exists st',
    write_loop f (Some s) (Z.of_nat i) n st = Some (tt, st')
    /\ cfg st' = cfg st
    /\ world st' = fold_left (fun w c => f c w) (firstn n (skipn i (cells s))) (world st)
    /\ trace st' = trace st ++ map EvWrite (firstn n (skipn i (cells s))).
Proof.
  induction n as [|n IH]; intros i st Hn.
  - exists st. cbn [firstn map fold_left]. rewrite app_nil_r. repeat split.
  - destruct (nth_error (cells s) i) as [x|] eqn:Ex.
    2:{ apply nth_error_None in Ex. lia. }
    assert (Ec : char_at (Some s) (Z.of_nat i) = Some x).
    { rewrite char_at_cells; [exact Ex | lia]. }
    destruct (IH (S i) (mkMachine (cfg st) (f x (world st)) (trace st ++ [EvWrite x])))
      as (st' & E & C & Hw & T); [lia|].
    exists st'. split; [|split; [exact C|split]].
    + cbn [write_loop]. unfold bind at 1. rewrite Ec. cbn [lift ret].
      unfold bind at 1. unfold call at 1.
      replace (Z.of_nat i + 1) with (Z.of_nat (S i)) by lia. exact E.
    + rewrite Hw. cbn [world]. rewrite (skipn_cons_nth _ _ _ Ex). reflexivity.
    + rewrite T. cbn [trace]. rewrite (skipn_cons_nth _ _ _ Ex).
      cbn [firstn map]. rewrite <- app_assoc. reflexivity.
Qed.

(** Whatever it is given, a call of [write] that returns has only
    written. *)
Lemma write_loop_inv f p n : forall i st st',
  write_loop f p i n st = Some (tt, st') ->
  cfg st' = cfg st
  /\ exists l, trace st' = trace st ++ map EvWrite l.
Proof.
  induction n as [|n IH]; intros i st st' E.
  - inversion E; subst. split; [reflexivity|]. exists []. rewrite app_nil_r. reflexivity.
  - cbn [write_loop] in E. apply bind_inv in E. destruct E as (c & st1 & E1 & E).
    unfold lift in E1. destruct (char_at p i) as [x|]; [|discriminate].
    inversion E1; subst c st1. clear E1.
    apply bind_inv in E. destruct E as ([] & st2 & E2 & E).
    inversion E2; subst st2. clear E2.
    destruct (IH _ _ _ E) as (C & l & T). cbn [cfg trace] in C, T.
    split; [exact C|]. exists (x :: l). rewrite T, <- app_assoc. reflexivity.
Qed.

Lemma write_inv (p : cstring) size st st' :
  write p size st = Some (tt, st') ->
  cfg st' = cfg st
  /\ exists l, trace st' = trace st ++ map EvWrite l.
Proof.
  unfold write, bind, get_cfg. destruct (write_function (cfg st)) as [f|].
  - apply write_loop_inv.
  - intros E. inversion E; subst. split; [reflexivity|].
    exists []. rewrite app_nil_r. reflexivity.
Qed.

Lemma char_at_some (p : cstring) i x :
  char_at p (Z.of_nat i) = Some x ->
  exists s, p = Some s /\ (i < length (cells s))%nat.
Proof.
  destruct p as [s|]; [|discriminate]. intros E. exists s. split; [reflexivity|].
  unfold cells. rewrite length_app. cbn [length]. unfold char_at in E.
  destruct (Z.ltb_spec (Z.of_nat i) 0); [discriminate|].
  destruct (Z.ltb_spec (Z.of_nat i) (Z.of_nat (length s))); [lia|].
  destruct (Z.eqb_spec (Z.of_nat i) (Z.of_nat (length s))); [lia | discriminate].
Qed.

(** A loop of [write] that returns has stayed inside the array. *)
Lemma write_loop_some f (p : cstring) n : forall i st st',
  (0 < n)%nat ->
  write_loop f p (Z.of_nat i) n st = Some (tt, st') ->
  exists s, p = Some s /\ (i + n <= length (cells s))%nat.
Proof.
  induction n as [|n IH]; intros i st st' Hn E; [lia|].
  cbn [write_loop] in E. apply bind_inv in E. destruct E as (c & st1 & E1 & E).
  unfold lift in E1. destruct (char_at p (Z.of_nat i)) as [x|] eqn:Ex; [|discriminate].
  destruct (char_at_some _ _ _ Ex) as (s & Hp & Hi).
  exists s. split; [exact Hp|].
  destruct n as [|m]; [lia|].
  inversion E1; subst c st1. clear E1.
  apply bind_inv in E. destruct E as ([] & st2 & E2 & E).
  replace (Z.of_nat i + 1) with (Z.of_nat (S i)) in E by lia.
  destruct (IH (S i) st2 st' ltac:(lia) E) as (s' & Hp' & Hb).
  rewrite Hp in Hp'. inversion Hp'; subst s'. lia.
Qed.

(** With a write function, a call of [write] for at least one byte that
    returns was given a string whose array holds [size] cells, and has
    written exactly the first [size] of them. *)
Lemma write_exact f (p : cstring) size st st' :
  write_function (cfg st) = Some f ->
  0 < size ->
  write p size st = Some (tt, st') ->
  exists s,
    p = Some s
    /\ (Z.to_nat size <= length (cells s))%nat
    /\ cfg st' = cfg st
    /\ trace st' = trace st ++ map EvWrite (firstn (Z.to_nat size) (cells s)).
Proof.
  intros Hf Hs E. unfold write, bind, get_cfg in E. rewrite Hf in E.
  destruct (write_loop_some f p (Z.to_nat size) 0%nat st st' ltac:(lia) E)
    as (s & Hp & Hb).
  exists s. split; [exact Hp|]. split; [lia|]. subst p.
  destruct (write_loop_cells f s (Z.to_nat size) 0%nat st Hb) as (st2 & E2 & C2 & _ & T2).
  change (Z.of_nat 0) with 0 in E2. rewrite E2 in E. inversion E; subst st2.
  split; [exact C2 | exact T2].
Qed.

Lemma traffic_map_write l : traffic (map EvWrite l) = map EvWrite l.
Proof. induction l as [|x l IH]; [reflexivity|]. cbn. f_equal. exact IH. Qed.

(** X1.  Without a write function [write] does nothing, whatever the
    pointer and the size.  With one, for a size up to the array of the
    string (its characters and the terminator), it calls the write
    function once per byte on the first [size] cells, in order, and on
    nothing else; a size of zero or less writes nothing.  The
    configuration is left as it is. *)
Theorem write_in_order st :
  (write_function (cfg st) = None ->
     forall p size, write p size st = Some (tt, st))
  /\ (forall f s size,
        write_function (cfg st) = Some f ->
        size <= Z.of_nat (length s) + 1 ->
        exists st',
          write (Some s) size st = Some (tt, st')
          /\ cfg st' = cfg st
          /\ trace st' = trace st ++ map EvWrite (firstn (Z.to_nat size) (cells s))
          /\ world st' = fold_left (fun w c => f c w)
                                   (firstn (Z.to_nat size) (cells s)) (world st)).
Proof.
  split.
  - intros Hn p size. unfold write, bind, get_cfg. rewrite Hn. reflexivity.
  - intros f s size Hf Hs. unfold write, bind, get_cfg. rewrite Hf.
    destruct (write_loop_cells f s (Z.to_nat size) 0%nat st) as (st' & E & C & Hw & T).
    { unfold cells. rewrite length_app. cbn [length]. lia. }
    exists st'. cbn [skipn] in Hw, T. repeat (split; [assumption|]). exact Hw.
Qed.

End Writing.

(** A three-character request written with size four: the terminator
    goes out as the fourth byte. *)
Lemma write_in_order_witness :
  exists st',
    write (lit "ATZ") 4 (start (session rn42 true) []) = Some (tt, st')
    /\ written (trace st') = ["A"; "T"; "Z"; "000"]%char.
Proof.
  destruct (proj2 (write_in_order script (start (session rn42 true) []))
              keep (list_ascii_of_string "ATZ") 4 eq_refl)
    as (st' & E & _ & T & _).
  { vm_compute. discriminate. }
  exists st'. split; [exact E|]. rewrite T. vm_compute. reflexivity.
Defined.

Section Sessions.

Variable W : Type.
Variable VALID_BAUD_RATES : list Z.
Implicit Types st : Machine W.

(** ** Switching the host UART *)

(** The calls of [initialize_baud]. *)
Lemma initialize_baud_calls (b : Z) st :
  exists r st',
    initialize_baud b st = Some (r, st')
    /\ same_setup (cfg st) (cfg st')
    /\ connected (cfg st') = connected (cfg st)
    /\ device_baud (cfg st') = device_baud (cfg st)
    /\ match baud_rate_initializer (cfg st) with
       | Some _ =>
           r = true /\ baud (cfg st') = b
           /\ traffic (trace st') = traffic (trace st) ++ [EvBaud b]
       | None =>
           r = false /\ cfg st' = cfg st
           /\ traffic (trace st') = traffic (trace st)
       end.
Proof.
  unfold initialize_baud. unfold bind at 1, get_cfg at 1.
  destruct (baud_rate_initializer (cfg st)) as [init|] eqn:Ei.
  - destruct (debug_run W "Initializing at baud %d" [ArgInt b] st) as (st1 & E1 & L1).
    rewrite (bind_run _ _ _ _ _ _ E1).
    unfold bind, call, modify_cfg, ret. cbn [cfg world trace].
    eexists. eexists. split; [reflexivity|]. cbn [cfg trace].
    pose proof (logged_traffic _ _ _ L1) as Ht. destruct L1 as (C1 & _). rewrite C1.
    split; [repeat split|]. split; [reflexivity|]. split; [reflexivity|].
    split; [reflexivity|]. split; [reflexivity|].
    rewrite traffic_app, Ht. reflexivity.
  - destruct (debug_run W "No baud rate initializer set, can't change baud - trying anyway"
                [] st) as (st1 & E1 & L1).
    rewrite (bind_run _ _ _ _ _ _ E1). unfold ret.
    exists false, st1. split; [reflexivity|].
    pose proof (logged_traffic _ _ _ L1) as Ht. destruct L1 as (C1 & _). rewrite C1.
    split; [apply same_setup_refl|]. repeat split. exact Ht.
Qed.

(** X6.  [initialize_baud] only acts on the host side.  With a baud rate
    initializer it calls it once with the rate, records the rate in
    [baud] and returns true; without one it returns false and leaves the
    configuration as it is.  Either way it writes and polls nothing and
    [connected], [device_baud], the platform and the function pointers are
    kept. *)
Theorem initialize_baud_host_only (b : Z) st :
  exists r st',
    initialize_baud b st = Some (r, st')
    /\ same_setup (cfg st) (cfg st')
    /\ connected (cfg st') = connected (cfg st)
    /\ device_baud (cfg st') = device_baud (cfg st)
    /\ match baud_rate_initializer (cfg st) with
       | Some _ =>
           r = true /\ baud (cfg st') = b
           /\ traffic (trace st') = traffic (trace st) ++ [EvBaud b]
       | None =>
           r = false /\ cfg st' = cfg st
           /\ traffic (trace st') = traffic (trace st)
       end.
Proof. exact (initialize_baud_calls b st). Qed.

(** ** Leaving command mode *)

(** Every way through [at_commander_exit_command_mode]. *)
Lemma exit_inv st r st' :
  at_commander_exit_command_mode st = Some (r, st') ->
  connected (cfg st') = negb r
  /\ same_setup (cfg st) (cfg st')
  /\ baud (cfg st') = baud (cfg st)
  /\ device_baud (cfg st') = device_baud (cfg st)
  /\ bauds (trace st') = bauds (trace st)
  /\ (connected (cfg st) = false ->
        r = true /\ traffic (trace st') = traffic (trace st)).
Proof.
  unfold at_commander_exit_command_mode. unfold bind at 1, get_cfg at 1.
  destruct (connected (cfg st)) eqn:Hc.
  - intros E. apply bind_inv in E. destruct E as (ok & st1 & E1 & E).
    apply command_request_inv in E1.
    destruct E1 as (c & e & ev & _ & _ & C1 & T1 & R1).
    pose proof (round_trip_bauds _ _ _ _ _ _ R1) as Hb.
    assert (B1 : bauds (trace st1) = bauds (trace st)).
    { rewrite T1, bauds_app, Hb, app_nil_r. reflexivity. }
    destruct ok.
    + destruct (debug_run W "Switched back to data mode" [] st1) as (st2 & E2 & L2).
      rewrite (bind_run _ _ _ _ _ _ E2) in E. unfold bind, modify_cfg, ret in E.
      inversion E; subst r st'. clear E. cbn [cfg trace connected with_connected baud device_baud negb].
      pose proof (logged_bauds _ _ _ L2) as Hb2. destruct L2 as (C2 & _).
      rewrite C2, C1, Hb2, B1.
      split; [reflexivity|]. split; [repeat split|].
      intuition congruence.
    + destruct (debug_run W "Unable to exit command mode" [] st1) as (st2 & E2 & L2).
      rewrite (bind_run _ _ _ _ _ _ E2) in E. unfold ret in E.
      inversion E; subst r st'. clear E.
      pose proof (logged_bauds _ _ _ L2) as Hb2. destruct L2 as (C2 & _).
      rewrite C2, C1, Hb2, B1.
      split; [exact Hc|]. split; [apply same_setup_refl|].
      intuition congruence.
  - destruct (debug_run W "Not in command mode" [] st) as (st1 & E1 & L1).
    rewrite (bind_run _ _ _ _ _ _ E1). unfold ret. intros E.
    inversion E; subst r st'. clear E.
    pose proof (logged_bauds _ _ _ L1) as Hb. pose proof (logged_traffic _ _ _ L1) as Ht.
    destruct L1 as (C1 & _). rewrite C1, Hb.
    split; [exact Hc|]. split; [apply same_setup_refl|].
    intuition congruence.
Qed.

(** X7.  Whenever [at_commander_exit_command_mode] returns, [connected]
    is the negation of what it returned: true means the session is out of
    command mode, false that it still is in it.  The call never switches
    the UART and keeps [baud], [device_baud], the platform and the
    function pointers; on a session that was not connected it returns
    true without any transport call. *)
Theorem exit_result_is_flag st r st' :
  at_commander_exit_command_mode st = Some (r, st') ->
  connected (cfg st') = negb r
  /\ same_setup (cfg st) (cfg st')
  /\ baud (cfg st') = baud (cfg st)
  /\ device_baud (cfg st') = device_baud (cfg st)
  /\ bauds (trace st') = bauds (trace st)
  /\ (connected (cfg st) = false ->
        r = true /\ traffic (trace st') = traffic (trace st)).
Proof. exact (exit_inv st r st'). Qed.

(** ** Entering command mode *)

Lemma last_cons {A} (b : A) bs d : last (b :: bs) d = last bs b.
Proof.
  revert b d. induction bs as [|x bs IH]; intros b d; [reflexivity|].
  change (last (b :: x :: bs) d) with (last (x :: bs) d).
  rewrite (IH x d), (IH x b). reflexivity.
Qed.

(** The UART after a run of failed probes. *)
Lemma fails_baud bs st st' :
  fails bs st st' ->
  baud_rate_initializer (cfg st) <> None ->
  baud (cfg st') = last bs (baud (cfg st)).
Proof.
  induction 1 as [st | b bs st st1 st2 Hp Hf IH]; intros Hi; [reflexivity|].
  apply probe_candidate_inv in Hp.
  destruct Hp as (_ & _ & _ & _ & (S1 & _ & _ & B1) & _).
  destruct S1 as (_ & Hin & _).
  rewrite IH; [|rewrite Hin; exact Hi].
  destruct (baud_rate_initializer (cfg st)); [|congruence].
  destruct B1 as [B1 _]. rewrite B1, last_cons. reflexivity.
Qed.

(** The polls of one probe. *)
Lemma probe_candidate_polls b st ok st' :
  probe_candidate b st = Some (ok, st') ->
  empty_polls (trace st') <= empty_polls (trace st) + MAX_RETRIES.
Proof.
  unfold probe_candidate. intros E.
  apply bind_inv in E. destruct E as (r & st1 & E1 & E).
  destruct (initialize_baud_calls b st) as (r' & st1' & E1' & _ & _ & _ & Hm).
  rewrite E1 in E1'. inversion E1'; subst r' st1'. clear E1'.
  assert (P1 : empty_polls (trace st1) = empty_polls (trace st)).
  { rewrite <- (empty_polls_traffic (trace st1)), <- (empty_polls_traffic (trace st)).
    destruct (baud_rate_initializer (cfg st)).
    - destruct Hm as (_ & _ & Ht). rewrite Ht, empty_polls_app. cbn [empty_polls]. lia.
    - destruct Hm as (_ & _ & Ht). rewrite Ht. reflexivity. }
  apply bind_inv in E. destruct E as ([] & st2 & E2 & E).
  destruct (debug_run W "Attempting to enter command mode" [] st1) as (st2' & E2' & L2).
  rewrite E2 in E2'. inversion E2'; subst st2'. clear E2'.
  pose proof (logged_empty_polls _ _ _ L2) as P2.
  unfold bind at 1, get_cfg at 1 in E. apply command_request_inv in E.
  destruct E as (c & e & ev & _ & _ & _ & T & R).
  apply round_trip_facts in R. destruct R as (_ & Hp & _).
  rewrite T, empty_polls_app. lia.
Qed.

Lemma fails_polls bs st st' :
  fails bs st st' ->
  empty_polls (trace st') <= empty_polls (trace st) + MAX_RETRIES * Z.of_nat (length bs).
Proof.
  induction 1 as [st | b bs st st1 st2 Hp Hf IH]; [cbn [length]; lia|].
  apply probe_candidate_polls in Hp. cbn [length]. unfold MAX_RETRIES in *. lia.
Qed.

(** X8.  Whenever [at_commander_enter_command_mode] returns, the value
    returned is the [connected] flag it leaves; a session that was
    connected stays connected; [device_baud], the platform and the
    function pointers are kept, and so is [baud] when there is no baud
    rate initializer. *)
Theorem enter_result_is_flag st r st' :
  at_commander_enter_command_mode VALID_BAUD_RATES st = Some (r, st') ->
  r = connected (cfg st')
  /\ (connected (cfg st) = true -> r = true /\ cfg st' = cfg st)
  /\ same_setup (cfg st) (cfg st')
  /\ device_baud (cfg st') = device_baud (cfg st)
  /\ (baud_rate_initializer (cfg st) = None -> baud (cfg st') = baud (cfg st)).
Proof.
  intros E. pose proof (enter_inv _ _ _ _ _ E) as (Hr & Hs & Hd).
  split; [exact Hr|]. split; [|split; [exact Hs|split; [exact Hd|]]].
  - intros Hc. destruct (enter_connected W VALID_BAUD_RATES st Hc) as (st1 & E1 & (C & _)).
    rewrite E1 in E. inversion E; subst. split; [reflexivity | exact C].
  - intros Hi. destruct (connected (cfg st)) eqn:Hc.
    + destruct (enter_connected W VALID_BAUD_RATES st Hc) as (st1 & E1 & (C & _)).
      rewrite E1 in E. inversion E; subst. rewrite C. reflexivity.
    + destruct (enter_disconnected_inv _ _ _ _ _ Hc E) as (stp & Ep & (C & _) & _).
      rewrite C. apply probe_candidates_inv in Ep.
      destruct Ep as [(pre & b & post & s1 & s2 & _ & Hf & Hp & Hsp)|Hf].
      * apply fails_effect in Hf. destruct Hf as (S1 & _ & _ & _ & N1 & _).
        apply probe_candidate_inv in Hp.
        destruct Hp as (_ & _ & _ & _ & (_ & _ & _ & B2) & _).
        destruct S1 as (_ & Hin & _). rewrite Hin, Hi in B2.
        subst stp. cbn [cfg baud with_connected].
        destruct B2 as [B2 _]. rewrite B2. apply N1. exact Hi.
      * apply fails_effect in Hf. destruct Hf as (_ & _ & _ & _ & N1 & _).
        apply N1. exact Hi.
Qed.

(** X12.  A discovery pass that fails leaves the host UART at the last
    candidate: with a baud rate initializer, when
    [at_commander_enter_command_mode] returns false on a disconnected
    session, [baud] holds the last entry of the candidate list (and its
    old value when the list is empty). *)
Theorem failed_discovery_leaves_last_baud st st' :
  connected (cfg st) = false ->
  baud_rate_initializer (cfg st) <> None ->
  at_commander_enter_command_mode VALID_BAUD_RATES st = Some (false, st') ->
  baud (cfg st') = last VALID_BAUD_RATES (baud (cfg st))
  /\ bauds (trace st') = bauds (trace st) ++ VALID_BAUD_RATES.
Proof.
  intros Hc Hi E.
  destruct (enter_disconnected_inv _ _ _ _ _ Hc E) as (stp & Ep & L & Hr).
  pose proof (logged_bauds _ _ _ L) as Lb. destruct L as (C & _). rewrite C, Lb.
  apply probe_candidates_inv in Ep.
  destruct Ep as [(pre & b & post & s1 & s2 & _ & _ & _ & Hsp)|Hf].
  - subst stp. discriminate Hr.
  - split; [apply fails_baud; assumption|].
    apply fails_effect in Hf. destruct Hf as (_ & _ & _ & B1 & _).
    rewrite B1. destruct (baud_rate_initializer (cfg st)); [reflexivity | congruence].
Qed.

(** X13.  Discovery is bounded: whatever the device does, one call of
    [at_commander_enter_command_mode] makes at most [MAX_RETRIES] empty
    polls per candidate, and none on a session that is connected. *)
Theorem enter_command_mode_poll_bound st r st' :
  at_commander_enter_command_mode VALID_BAUD_RATES st = Some (r, st') ->
  empty_polls (trace st')
    <= empty_polls (trace st) + MAX_RETRIES * Z.of_nat (length VALID_BAUD_RATES)
  /\ (connected (cfg st) = true -> read_calls (trace st') = read_calls (trace st)).
Proof.
  intros E. split.
  - destruct (connected (cfg st)) eqn:Hc.
    + destruct (enter_connected W VALID_BAUD_RATES st Hc) as (st1 & E1 & L).
      rewrite E1 in E. inversion E; subst. rewrite (logged_empty_polls _ _ _ L).
      unfold MAX_RETRIES. lia.
    + destruct (enter_disconnected_inv _ _ _ _ _ Hc E) as (stp & Ep & L & _).
      rewrite (logged_empty_polls _ _ _ L).
      apply probe_candidates_inv in Ep.
      destruct Ep as [(pre & b & post & s1 & s2 & Hb & Hf & Hp & Hsp)|Hf].
      * apply fails_polls in Hf. apply probe_candidate_polls in Hp.
        subst stp. cbn [trace]. rewrite Hb, length_app. cbn [length].
        unfold MAX_RETRIES in *. lia.
      * apply fails_polls in Hf. exact Hf.
  - intros Hc. destruct (enter_connected W VALID_BAUD_RATES st Hc) as (st1 & E1 & L).
    rewrite E1 in E. inversion E; subst. apply logged_read_calls. exact L.
Qed.

End Sessions.

Section Settings.

Variable W : Type.
Variable VALID_BAUD_RATES : list Z.
Implicit Types st : Machine W.

(** ** Storing, changing the baud rate, rebooting *)

Lemma store_settings_inv st ok st' :
  at_commander_store_settings st = Some (ok, st') ->
  cfg st' = cfg st
  /\ bauds (trace st') = bauds (trace st)
  /\ empty_polls (trace st') <= empty_polls (trace st) + MAX_RETRIES.
Proof.
  intros E. destruct (store_settings_cases W st) as [Hn Hs].
  destruct (request_format (store_settings_command (platform (cfg st)))) as [req|] eqn:Hq.
  2:{ rewrite Hn in E by (left; reflexivity). inversion E; subst.
      unfold MAX_RETRIES. repeat split; lia. }
  destruct (expected_response (store_settings_command (platform (cfg st))))
    as [expected|] eqn:He.
  2:{ rewrite Hn in E by (right; reflexivity). inversion E; subst.
      unfold MAX_RETRIES. repeat split; lia. }
  destruct (Hs req expected eq_refl eq_refl) as (ok1 & st1 & st2 & E1 & E2 & L & _).
  rewrite E2 in E. inversion E; subst ok1 st2. clear E.
  apply command_request_inv in E1. destruct E1 as (c & e & ev & _ & _ & C1 & T1 & R1).
  pose proof (round_trip_bauds _ _ _ _ _ _ R1) as Hb.
  apply round_trip_facts in R1. destruct R1 as (_ & Hp & _).
  rewrite (logged_bauds _ _ _ L), (logged_empty_polls _ _ _ L).
  destruct L as (C & _). rewrite C, C1, T1, bauds_app, Hb, app_nil_r, empty_polls_app.
  repeat split; lia.
Qed.

(** X14.  On a session with a read function, the one pointer the code
    calls untested, and a profile whose store response fits the response
    array of [command_request], [at_commander_store_settings] returns a
    boolean, whatever the state of the session.  It stores no more bytes
    than the response array holds, changes no field of the configuration,
    never switches the UART, and makes at most [MAX_RETRIES] empty
    polls. *)
Theorem store_settings_returns st :
  response_fits (store_settings_command (platform (cfg st))) = true ->
  exists ok st' ev,
    at_commander_store_settings st = Some (ok, st')
    /\ cfg st' = cfg st
    /\ trace st' = trace st ++ ev
    /\ Z.of_nat (length (received ev)) <= MAX_RESPONSE_LENGTH
    /\ bauds (trace st') = bauds (trace st)
    /\ empty_polls (trace st') <= empty_polls (trace st) + MAX_RETRIES.
Proof.
  intros Hfit.
  destruct (store_settings_run W st) as (ok & st' & E & _).
  pose proof (store_settings_inv _ _ _ E) as (C & Hb & Hp).
  assert (Hev : exists ev, trace st' = trace st ++ ev
                           /\ Z.of_nat (length (received ev)) <= MAX_RESPONSE_LENGTH).
  { destruct (store_settings_cases W st) as [Hn Hs].
    destruct (request_format (store_settings_command (platform (cfg st))))
      as [req|] eqn:Hq.
    2:{ rewrite Hn in E by (left; reflexivity). inversion E; subst.
        exists []. rewrite app_nil_r. split; [reflexivity|].
        unfold MAX_RESPONSE_LENGTH. cbn [received length]. lia. }
    unfold response_fits in Hfit.
    destruct (expected_response (store_settings_command (platform (cfg st))))
      as [expected|] eqn:He.
    2:{ rewrite Hn in E by (right; reflexivity). inversion E; subst.
        exists []. rewrite app_nil_r. split; [reflexivity|].
        unfold MAX_RESPONSE_LENGTH. cbn [received length]. lia. }
    apply Z.leb_le in Hfit.
    destruct (Hs req expected eq_refl eq_refl) as (ok1 & st1 & st2 & E1 & E2 & L & _).
    rewrite E2 in E. inversion E; subst ok1 st2. clear E.
    apply command_request_inv in E1.
    destruct E1 as (c & e & ev & Hc & Hx & _ & T1 & R1).
    inversion Hx; subst e. clear Hx.
    apply round_trip_facts in R1. destruct R1 as (Hl & _).
    destruct L as (_ & (lv & Tl & Ll) & _).
    exists (ev ++ lv). split; [rewrite Tl, T1, app_assoc; reflexivity|].
    rewrite received_app, (no_read_received _ (log_no_read _ Ll)), app_nil_r. lia. }
  destruct Hev as (ev & T & Hl).
  exists ok, st', ev. split; [exact E|]. split; [exact C|]. split; [exact T|].
  split; [exact Hl|]. split; [exact Hb | exact Hp].
Qed.

(** Every way through [at_commander_set_baud], from the machine mode
    entry left. *)
Lemma set_baud_inv (new_baud : Z) st r st' :
  at_commander_set_baud VALID_BAUD_RATES new_baud st = Some (r, st') ->
  exists ok st1,
    at_commander_enter_command_mode VALID_BAUD_RATES st = Some (ok, st1)
    /\ same_setup (cfg st1) (cfg st')
    /\ connected (cfg st') = connected (cfg st1)
    /\ baud (cfg st') = baud (cfg st1)
    /\ bauds (trace st') = bauds (trace st1)
    /\ (r = true ->
          ok = true /\ device_baud (cfg st') = new_baud
          /\ template_modelled (platform (cfg st1)) = true
          /\ exists command,
               set_baud_command (platform (cfg st1)) new_baud = Some command
               /\ command_fits command = true)
    /\ (r = false -> device_baud (cfg st') = device_baud (cfg st1)).
Proof.
  unfold at_commander_set_baud. intros E.
  apply bind_inv in E. destruct E as (ok & st1 & Ee & E).
  exists ok, st1. split; [exact Ee|]. destruct ok.
  - unfold bind at 1, get_cfg at 1 in E.
    apply bind_inv in E. destruct E as (command & stx & El & E).
    unfold lift in El.
    destruct (set_baud_command (platform (cfg st1)) new_baud) as [cmd|] eqn:Ec;
      [|discriminate].
    inversion El; subst command stx. clear El.
    destruct (template_modelled (platform (cfg st1)) && command_fits cmd) eqn:Hfit;
      [|discriminate].
    apply andb_true_iff in Hfit. destruct Hfit as [Htm Hfit].
    apply bind_inv in E. destruct E as (ok' & st2 & Er & E).
    apply command_request_inv in Er.
    destruct Er as (c & e & ev & _ & _ & C2 & T2 & R2).
    pose proof (round_trip_bauds _ _ _ _ _ _ R2) as Hb2.
    assert (B2 : bauds (trace st2) = bauds (trace st1)).
    { rewrite T2, bauds_app, Hb2, app_nil_r. reflexivity. }
    destruct ok'.
    + apply bind_inv in E. destruct E as ([] & st3 & Ed & E).
      destruct (debug_run W "Changed device baud rate to %d" [ArgInt new_baud] st2)
        as (st3' & Ed' & L3).
      rewrite Ed in Ed'. inversion Ed'; subst st3'. clear Ed'.
      apply bind_inv in E. destruct E as ([] & st4 & Em & E).
      unfold modify_cfg in Em. inversion Em; subst st4. clear Em.
      apply bind_inv in E. destruct E as (stored & st5 & Es & E).
      unfold ret in E. inversion E; subst r st5. clear E.
      apply store_settings_inv in Es. destruct Es as (C5 & B5 & _).
      cbn [cfg trace] in C5, B5.
      pose proof (logged_bauds _ _ _ L3) as B3. destruct L3 as (C3 & _).
      rewrite C5, B5, B3, B2. cbn [connected baud device_baud with_device_baud].
      rewrite C3, C2.
      split; [repeat split|]. repeat (split; [reflexivity|]).
      split; [|discriminate].
      intros _. split; [reflexivity|]. split; [reflexivity|].
      split; [exact Htm|].
      exists cmd. split; [reflexivity | exact Hfit].
    + apply bind_inv in E. destruct E as ([] & st3 & Ed & E).
      destruct (debug_run W "Unable to change device baud rate" [] st2)
        as (st3' & Ed' & L3).
      rewrite Ed in Ed'. inversion Ed'; subst st3'. clear Ed'.
      unfold ret in E. inversion E; subst r st3. clear E.
      pose proof (logged_bauds _ _ _ L3) as B3. destruct L3 as (C3 & _).
      rewrite C3, C2, B3, B2.
      split; [apply same_setup_refl|]. repeat (split; [reflexivity|]).
      split; [discriminate | reflexivity].
  - apply bind_inv in E. destruct E as ([] & st3 & Ed & E).
    destruct (debug_run W "Unable to enter command mode, can't set baud rate" [] st1)
      as (st3' & Ed' & L3).
    rewrite Ed in Ed'. inversion Ed'; subst st3'. clear Ed'.
    unfold ret in E. inversion E; subst r st3. clear E.
    pose proof (logged_bauds _ _ _ L3) as B3. destruct L3 as (C3 & _).
    rewrite C3, B3.
    split; [apply same_setup_refl|]. repeat (split; [reflexivity|]).
    split; [discriminate | reflexivity].
Qed.


(** X10.  Changing the device's baud rate never touches the host side:
    whenever [at_commander_set_baud] returns, which after a successful
    mode entry it does only for a request that fits [command], it has not
    called the baud rate initializer after mode entry and has not changed
    [baud] since.  On a session that is already connected the UART and
    [baud] are exactly what they were, also when the device has
    acknowledged a new rate. *)
Theorem set_baud_keeps_uart (new_baud : Z) st r st' :
  at_commander_set_baud VALID_BAUD_RATES new_baud st = Some (r, st') ->
  exists ok st1,
    at_commander_enter_command_mode VALID_BAUD_RATES st = Some (ok, st1)
    /\ baud (cfg st') = baud (cfg st1)
    /\ bauds (trace st') = bauds (trace st1)
    /\ (connected (cfg st) = true ->
          baud (cfg st') = baud (cfg st)
          /\ bauds (trace st') = bauds (trace st)).
Proof.
  intros E. apply set_baud_inv in E.
  destruct E as (ok & st1 & Ee & _ & _ & B1 & T1 & _).
  exists ok, st1. split; [exact Ee|]. split; [exact B1|]. split; [exact T1|].
  intros Hc. destruct (enter_connected W VALID_BAUD_RATES st Hc) as (st2 & E2 & L).
  rewrite E2 in Ee. inversion Ee; subst ok st2.
  rewrite B1, T1, (logged_bauds _ _ _ L). destruct L as (C & _). rewrite C.
  split; reflexivity.
Qed.

(** X11.  Whenever [at_commander_reboot] returns, it returns what mode
    entry returned and leaves the configuration mode entry left.  After
    a failed entry it makes no transport call.  After a successful entry
    its transport calls are exactly these: nothing without a write
    function; with one, the first five cells of the array of the reboot
    request, which is then not NULL and has at least five cells.  Nothing
    is polled or awaited.  [connected] is still true after a reboot that
    returned true, so the next [at_commander_enter_command_mode] returns
    true without any transport call. *)
Theorem reboot_keeps_connected st r st' :
  at_commander_reboot VALID_BAUD_RATES st = Some (r, st') ->
  exists st1,
    at_commander_enter_command_mode VALID_BAUD_RATES st = Some (r, st1)
    /\ cfg st' = cfg st1
    /\ connected (cfg st') = r
    /\ (r = false -> traffic (trace st') = traffic (trace st1))
    /\ (r = true ->
        match write_function (cfg st1) with
        | None => traffic (trace st') = traffic (trace st1)
        | Some _ =>
            exists s,
              request_format (reboot_command (platform (cfg st1))) = Some s
              /\ (5 <= length (cells s))%nat
              /\ traffic (trace st')
                 = traffic (trace st1) ++ map EvWrite (firstn 5 (cells s))
        end)
    /\ (r = true ->
        exists st2,
          at_commander_enter_command_mode VALID_BAUD_RATES st' = Some (true, st2)
          /\ logged st' st2).
Proof.
  unfold at_commander_reboot. intros E.
  apply bind_inv in E. destruct E as (ok & st1 & Ee & E).
  pose proof (enter_inv _ _ _ _ _ Ee) as (Hr & _).
  destruct ok.
  - unfold bind at 1, get_cfg at 1 in E.
    apply bind_inv in E. destruct E as ([] & st2 & Ew & E).
    pose proof (write_inv _ _ _ _ _ Ew) as (C2 & _).
    apply bind_inv in E. destruct E as ([] & st3 & Ed & E).
    destruct (debug_run W "Rebooting RN-42" [] st2) as (st3' & Ed' & L3).
    rewrite Ed in Ed'. inversion Ed'; subst st3'. clear Ed'.
    unfold ret in E. inversion E; subst r st3. clear E.
    exists st1. split; [exact Ee|].
    pose proof (logged_traffic _ _ _ L3) as T3. destruct L3 as (C3 & _).
    assert (Hc3 : connected (cfg st') = true) by (rewrite C3, C2; symmetry; exact Hr).
    destruct (enter_connected W VALID_BAUD_RATES st' Hc3) as (st4 & E4 & L4).
    split; [rewrite C3, C2; reflexivity|]. split; [exact Hc3|].
    split; [discriminate|]. split.
    + intros _. rewrite T3.
      destruct (write_function (cfg st1)) as [f|] eqn:Hf.
      * destruct (write_exact W f _ 5 st1 st2 Hf ltac:(lia) Ew) as (s & Hp & Hb & _ & T2).
        exists s. split; [exact Hp|]. split; [exact Hb|].
        rewrite T2, traffic_app, traffic_map_write. reflexivity.
      * unfold write, bind, get_cfg in Ew. rewrite Hf in Ew.
        inversion Ew; subst st2. reflexivity.
    + intros _. exists st4. split; [exact E4 | exact L4].
  - apply bind_inv in E. destruct E as ([] & st3 & Ed & E).
    destruct (debug_run W "Unable to enter command mode, can't reboot" [] st1)
      as (st3' & Ed' & L3).
    rewrite Ed in Ed'. inversion Ed'; subst st3'. clear Ed'.
    unfold ret in E. inversion E; subst r st3. clear E.
    exists st1. split; [exact Ee|].
    pose proof (logged_traffic _ _ _ L3) as Ht.
    destruct L3 as (C3 & _). rewrite C3.
    split; [reflexivity|]. split; [symmetry; exact Hr|].
    split; [intros _; exact Ht|]. split; discriminate.
Qed.

End Settings.

(** ** The order of the calls of a probe *)

Lemma traffic_all t :
  forallb (fun e => negb (is_log e)) t = true -> traffic t = t.
Proof.
  induction t as [|e t IH]; [reflexivity|].
  cbn [forallb traffic filter]. intros H. apply andb_true_iff in H.
  destruct H as [He Ht]. rewrite He. fold (traffic t). rewrite (IH Ht). reflexivity.
Qed.

Lemma poll_not_log pv :
  forallb is_poll pv = true -> forallb (fun e => negb (is_log e)) pv = true.
Proof.
  induction pv as [|e t IH]; [reflexivity|].
  destruct e; cbn [forallb is_poll is_log negb andb]; try discriminate;
    intros H; try (apply andb_true_iff in H; destruct H as [_ H]); auto.
Qed.

Section Probes.

Variable W : Type.
Implicit Types st : Machine W.

Lemma traffic_writes_of (c : AtCommanderConfig W) s :
  traffic (writes_of c s) = writes_of c s.
Proof.
  apply traffic_all. unfold writes_of. destruct (write_function c); [|reflexivity].
  induction (text s) as [|x l IH]; [reflexivity | exact IH].
Qed.

Lemma traffic_delay_of (c : AtCommanderConfig W) ms :
  traffic (delay_of c ms) = delay_of c ms.
Proof. unfold delay_of. destruct (delay_function c); reflexivity. Qed.

(** X15.  One probe of the discovery loop makes its transport calls in
    this order: the switch of the UART to the candidate, when a baud rate
    initializer is set; the bytes of the enter request; the settle delay;
    the polls.  So the request always goes out at the candidate rate, and
    the probe succeeds exactly when the bytes polled are the expected
    response. *)
Theorem probe_candidate_order (b : Z) st ok st' :
  probe_candidate b st = Some (ok, st') ->
  exists req expected pv,
    request_format (enter_command_mode_command (platform (cfg st))) = Some req
    /\ expected_response (enter_command_mode_command (platform (cfg st))) = Some expected
    /\ traffic (trace st')
       = traffic (trace st)
           ++ match baud_rate_initializer (cfg st) with
              | Some _ => [EvBaud b]
              | None => []
              end
           ++ writes_of (cfg st) req
           ++ delay_of (cfg st) (response_delay_ms (platform (cfg st)))
           ++ pv
    /\ forallb is_poll pv = true
    /\ (ok = true <-> received pv = text expected).
Proof.
  unfold probe_candidate. intros E.
  apply bind_inv in E. destruct E as (r & st1 & E1 & E).
  destruct (initialize_baud_calls W b st) as (r' & st1' & E1' & S1 & _ & _ & Hm).
  rewrite E1 in E1'. inversion E1'; subst r' st1'. clear E1'.
  apply bind_inv in E. destruct E as ([] & st2 & E2 & E).
  destruct (debug_run W "Attempting to enter command mode" [] st1) as (st2' & E2' & L2).
  rewrite E2 in E2'. inversion E2'; subst st2'. clear E2'.
  pose proof (logged_traffic _ _ _ L2) as T2. destruct L2 as (C2 & _).
  unfold bind at 1, get_cfg at 1 in E. apply command_request_inv in E.
  destruct E as (req & expected & ev & Hq & He & _ & T & R).
  assert (Hp : platform (cfg st2) = platform (cfg st)) by (rewrite C2; apply S1).
  assert (Hd : delay_function (cfg st2) = delay_function (cfg st)) by (rewrite C2; apply S1).
  assert (Hw : writes_of (cfg st2) req = writes_of (cfg st) req).
  { rewrite C2. apply writes_of_setup. exact S1. }
  rewrite Hp in Hq, He.
  destruct R as (pv & lv & n & buf & Hev & R & L & Hok).
  destruct R as (R1 & R2 & R3 & _).
  exists req, expected, pv. split; [exact Hq|]. split; [exact He|]. split; [|split].
  - rewrite T, Hev, !traffic_app, T2, Hw, Hp.
    unfold delay_of at 1. rewrite Hd. fold (delay_of (cfg st) (response_delay_ms (platform (cfg st)))).
    rewrite traffic_writes_of, traffic_delay_of, (log_traffic _ L), app_nil_r.
    rewrite (traffic_all _ (poll_not_log _ R1)).
    destruct (baud_rate_initializer (cfg st)).
    + destruct Hm as (_ & _ & Ht). rewrite Ht, <- !app_assoc. reflexivity.
    + destruct Hm as (_ & _ & Ht). rewrite Ht. reflexivity.
  - exact R1.
  - cbn [app] in R2. subst buf. rewrite Hok. apply matches_text. lia.
Qed.

(** ** Leaving twice *)

(** X16.  After a call of [at_commander_exit_command_mode] that returned
    true, a second call returns true, leaves the configuration as it is
    and makes no transport call. *)
Theorem exit_command_mode_idempotent st st1 :
  at_commander_exit_command_mode st = Some (true, st1) ->
  exists st2,
    at_commander_exit_command_mode st1 = Some (true, st2)
    /\ cfg st2 = cfg st1
    /\ traffic (trace st2) = traffic (trace st1)
    /\ (log_function (cfg st1) = None -> st2 = st1).
Proof.
  intros E. apply exit_inv in E. destruct E as (Hc & _). cbn [negb] in Hc.
  destruct (proj1 (exit_command_mode_run W st1) Hc) as (st2 & E2 & L).
  exists st2. split; [exact E2|].
  pose proof (logged_traffic _ _ _ L) as Ht. destruct L as (C & _ & N).
  split; [exact C|]. split; [exact Ht | exact N].
Qed.

End Probes.

(** ** The set-baud requests of the two profiles *)

(** The request [at_commander_set_baud] formats: on the RN-42
    profile ["SU,"], the decimal text of the baud rate itself and a line
    break; on the XBee profile ["ATBD "], the decimal text of the code the
    XBee mapper gives, and a line break. *)
Lemma set_baud_command_text (delay value0 baud : Z) :
  set_baud_command (AT_PLATFORM_RN42 delay) baud
  = Some (list_ascii_of_string "SU," ++ decimal baud ++ CRLF)
  /\ set_baud_command (AT_PLATFORM_XBEE value0) baud
     = Some (list_ascii_of_string "ATBD "
               ++ decimal (xbee_baud_rate_mapper value0 baud) ++ CRLF)
  /\ map decimal [0; 7; 9600; 115200]
     = map list_ascii_of_string ["0"; "7"; "9600"; "115200"]%string.
Proof. repeat split. Qed.

Lemma probe_candidate_order_witness :
  probe_candidate 1200 no_initializer
  = Some (true, outcome (probe_candidate 1200) no_initializer)
  /\ traffic (trace (outcome (probe_candidate 1200) no_initializer))
     = map EvWrite ["$"; "$"; "$"]%char
         ++ [EvDelay 10]
         ++ map EvRead (codes (lit_crlf "CMD")).
Proof.
  assert (E : probe_candidate 1200 no_initializer
              = Some (true, outcome (probe_candidate 1200) no_initializer))
    by (vm_compute; reflexivity).
  split; [exact E|].
  destruct (probe_candidate_order script 1200 _ _ _ E) as (req & e & pv & _ & _ & _ & _).
  vm_compute. reflexivity.
Defined.

Lemma exit_command_mode_idempotent_witness :
  at_commander_exit_command_mode (start (session rn42 true) (codes (lit_crlf "END")))
  = Some (true, outcome at_commander_exit_command_mode
                        (start (session rn42 true) (codes (lit_crlf "END"))))
  /\ exists st2,
       at_commander_exit_command_mode
         (outcome at_commander_exit_command_mode
                  (start (session rn42 true) (codes (lit_crlf "END"))))
       = Some (true, st2)
       /\ traffic (trace st2)
          = traffic (trace (outcome at_commander_exit_command_mode
                                    (start (session rn42 true) (codes (lit_crlf "END"))))).
Proof.
  assert (E : at_commander_exit_command_mode
                (start (session rn42 true) (codes (lit_crlf "END")))
              = Some (true, outcome at_commander_exit_command_mode
                                    (start (session rn42 true) (codes (lit_crlf "END")))))
    by (vm_compute; reflexivity).
  split; [exact E|].
  destruct (exit_command_mode_idempotent script _ _ E) as (st2 & E2 & _ & T & _).
  exists st2. split; [exact E2 | exact T].
Defined.

(** ** The further properties on concrete sessions *)

(** The enter request of the RN-42 answered in full. *)
Lemma command_request_protocol_witness :
  chars_strlen (list_ascii_of_string "CMD" ++ CRLF) <= MAX_RESPONSE_LENGTH
  /\ exists ok st' pv lv,
       command_request (lit "$$$") (lit_crlf "CMD")
         (start (session rn42 false) (codes (lit_crlf "CMD"))) = Some (ok, st')
       /\ trace st'
          = trace (start (session rn42 false) (codes (lit_crlf "CMD")))
            ++ writes_of (session rn42 false) (list_ascii_of_string "$$$")
            ++ delay_of (session rn42 false) (response_delay_ms rn42)
            ++ pv ++ lv
       /\ Z.of_nat (length (received pv)) <= MAX_RESPONSE_LENGTH.
Proof.
  assert (H : chars_strlen (list_ascii_of_string "CMD" ++ CRLF) <= MAX_RESPONSE_LENGTH)
    by (vm_compute; discriminate).
  split; [exact H|].
  destruct (command_request_protocol script (list_ascii_of_string "$$$")
              (list_ascii_of_string "CMD" ++ CRLF)
              (start (session rn42 false) (codes (lit_crlf "CMD"))) H)
    as (ok & st' & pv & lv & E & _ & T & _ & _ & B & _).
  exists ok, st', pv, lv. split; [exact E|]. split; [exact T | exact B].
Defined.

Lemma store_settings_returns_witness :
  response_fits (store_settings_command xbee) = true
  /\ exists ok st',
       at_commander_store_settings
         (start (session xbee true) (codes (lit_crlf "OK"))) = Some (ok, st')
       /\ cfg st' = session xbee true.
Proof.
  split; [reflexivity|].
  destruct (store_settings_returns script
              (start (session xbee true) (codes (lit_crlf "OK"))) eq_refl)
    as (ok & st' & ev & E & C & _).
  exists ok, st'. split; [exact E | exact C].
Defined.

Lemma command_request_verdict_witness :
  command_request (lit "$$$") (lit_crlf "CMD")
    (start (session rn42 false) (codes (lit_crlf "CMD")))
  = Some (true, outcome (command_request (lit "$$$") (lit_crlf "CMD"))
                        (start (session rn42 false) (codes (lit_crlf "CMD"))))
  /\ exists c e ev,
       lit "$$$" = Some c /\ lit_crlf "CMD" = Some e
       /\ trace (outcome (command_request (lit "$$$") (lit_crlf "CMD"))
                         (start (session rn42 false) (codes (lit_crlf "CMD"))))
          = trace (start (session rn42 false) (codes (lit_crlf "CMD"))) ++ ev
       /\ (true = true <-> received ev = text e).
Proof.
  assert (E : command_request (lit "$$$") (lit_crlf "CMD")
                (start (session rn42 false) (codes (lit_crlf "CMD")))
              = Some (true, outcome (command_request (lit "$$$") (lit_crlf "CMD"))
                                    (start (session rn42 false) (codes (lit_crlf "CMD")))))
    by (vm_compute; reflexivity).
  split; [exact E|].
  exact (command_request_verdict script _ _ _ _ _ E).
Defined.

(** A profile that expects nothing after its enter request. *)
Lemma command_request_empty_expected_witness :
  chars_strlen [] = 0
  /\ exists st',
       command_request (lit "+++") (lit "") (start (session silent_entry false) [])
       = Some (true, st')
       /\ read_calls (trace st') = 0.
Proof.
  split; [reflexivity|].
  destruct (command_request_empty_expected script (list_ascii_of_string "+++") []
              (start (session silent_entry false) []) eq_refl)
    as (st' & E & _ & _ & R).
  exists st'. split; [exact E | exact R].
Defined.

(** Leaving command mode on an RN-42 that acknowledges. *)
Lemma exit_result_is_flag_witness :
  at_commander_exit_command_mode (start (session rn42 true) (codes (lit_crlf "END")))
  = Some (true, outcome at_commander_exit_command_mode
                        (start (session rn42 true) (codes (lit_crlf "END"))))
  /\ connected (cfg (outcome at_commander_exit_command_mode
                             (start (session rn42 true) (codes (lit_crlf "END")))))
     = negb true.
Proof.
  assert (E : at_commander_exit_command_mode
                (start (session rn42 true) (codes (lit_crlf "END")))
              = Some (true, outcome at_commander_exit_command_mode
                                    (start (session rn42 true) (codes (lit_crlf "END")))))
    by (vm_compute; reflexivity).
  split; [exact E|].
  exact (proj1 (exit_result_is_flag script _ _ _ E)).
Defined.

(** The discovery scenario. *)
Lemma enter_result_is_flag_witness :
  at_commander_enter_command_mode sample_bauds scenario = Some (true, entered)
  /\ true = connected (cfg entered)
  /\ device_baud (cfg entered) = device_baud (cfg scenario).
Proof.
  assert (E : at_commander_enter_command_mode sample_bauds scenario
              = Some (true, entered)) by (vm_compute; reflexivity).
  split; [exact E|].
  destruct (enter_result_is_flag script sample_bauds _ _ _ E) as (H1 & _ & _ & H4 & _).
  split; [exact H1 | exact H4].
Defined.

Lemma enter_command_mode_poll_bound_witness :
  at_commander_enter_command_mode sample_bauds scenario = Some (true, entered)
  /\ empty_polls (trace entered)
     <= empty_polls (trace scenario) + MAX_RETRIES * Z.of_nat (length sample_bauds).
Proof.
  assert (E : at_commander_enter_command_mode sample_bauds scenario
              = Some (true, entered)) by (vm_compute; reflexivity).
  split; [exact E|].
  exact (proj1 (enter_command_mode_poll_bound script sample_bauds _ _ _ E)).
Defined.

(** No device answers: every candidate is tried and the UART is left at
    115200. *)
Lemma failed_discovery_leaves_last_baud_witness :
  connected (cfg (start (session rn42 false) [])) = false
  /\ at_commander_enter_command_mode sample_bauds (start (session rn42 false) [])
     = Some (false, outcome (at_commander_enter_command_mode sample_bauds)
                            (start (session rn42 false) []))
  /\ baud (cfg (outcome (at_commander_enter_command_mode sample_bauds)
                        (start (session rn42 false) []))) = 115200.
Proof.
  assert (E : at_commander_enter_command_mode sample_bauds (start (session rn42 false) [])
              = Some (false, outcome (at_commander_enter_command_mode sample_bauds)
                                     (start (session rn42 false) [])))
    by (vm_compute; reflexivity).
  split; [reflexivity|]. split; [exact E|].
  assert (Hi : baud_rate_initializer (cfg (start (session rn42 false) [])) <> None)
    by discriminate.
  exact (proj1 (failed_discovery_leaves_last_baud script sample_bauds
                  (start (session rn42 false) []) _ eq_refl Hi E)).
Defined.


Lemma set_baud_keeps_uart_witness :
  at_commander_set_baud sample_bauds 9600
    (start (session short_request true) (codes (lit "OK")))
  = Some (true, outcome (at_commander_set_baud sample_bauds 9600)
                        (start (session short_request true) (codes (lit "OK"))))
  /\ baud (cfg (outcome (at_commander_set_baud sample_bauds 9600)
                        (start (session short_request true) (codes (lit "OK")))))
     = baud (cfg (start (session short_request true) (codes (lit "OK")))).
Proof.
  assert (E : at_commander_set_baud sample_bauds 9600
                (start (session short_request true) (codes (lit "OK")))
              = Some (true, outcome (at_commander_set_baud sample_bauds 9600)
                                    (start (session short_request true) (codes (lit "OK")))))
    by (vm_compute; reflexivity).
  split; [exact E|].
  destruct (set_baud_keeps_uart script sample_bauds 9600 _ _ _ E)
    as (ok & st1 & _ & _ & _ & H).
  exact (proj1 (H eq_refl)).
Defined.

(** Rebooting a connected RN-42. *)
Lemma reboot_keeps_connected_witness :
  at_commander_reboot sample_bauds (start (session rn42 true) [])
  = Some (true, outcome (at_commander_reboot sample_bauds)
                        (start (session rn42 true) []))
  /\ connected (cfg (outcome (at_commander_reboot sample_bauds)
                             (start (session rn42 true) []))) = true.
Proof.
  assert (E : at_commander_reboot sample_bauds (start (session rn42 true) [])
              = Some (true, outcome (at_commander_reboot sample_bauds)
                                    (start (session rn42 true) [])))
    by (vm_compute; reflexivity).
  split; [exact E|].
  destruct (reboot_keeps_connected script sample_bauds _ _ _ E) as (st1 & _ & _ & H & _).
  exact H.
Defined.
